(** * Sales Analysis Dashboard ([app2.py]): loader, metrics and report engine

    A shallow embedding of the computational core of [app2.py]: the file
    loader with its column check (lines 82-112), the two filtered views
    (lines 143-147), the vendor mapping (lines 149-158), the key metrics
    (lines 160-215) and the financial report (lines 217-270).

    Conventions.
    - pandas numbers are binary floating point; here a number is an exact
      rational ([Q]) and a missing or unparseable cell ([NaN], [NaT]) is
      [None].  Sums skip missing cells, as [Series.sum] does.
    - A text formatted from a rational ([Py.fmt2]) is the text of the exact
      value: it is the text the script shows wherever the floating-point
      computation is exact (Scenario A is checked on binary64 below), and
      statements over arbitrary amounts are made on values, up to [==].
    - Chart rendering, theming, the clock ([Generated On]) and the
      [Date Range] line of the report (line 220) are not embedded in
      [analyse]: [Rendered] stands for lines 102-270 without line 220, whose
      [min()] over a date column mixing dates and missing values depends on
      the pandas version.  The optional columns [Code] and
      [Running Balance], which no figure reads, are not fields of a [Row].
    - [read_files] and [run] take each upload as the frame [read_csv] made of
      it; [load_uploads] and [run_uploads] further down also cover an upload
      [read_csv] raises on.
    - [Py.strip_is_empty] knows the ASCII blanks; [vid_str] on a float column
      is exact for ids below 2^53.
    - The script is one pass from top to bottom; its result is an [Outcome]. *)

From Stdlib Require Import PrimFloat.
From Stdlib Require Import List String Ascii Bool ZArith QArith Qabs Lia.
From Stdlib Require Import DecimalString Sorting.Sorted Permutation.
Import ListNotations.

Set Warnings "-inexact-float".

Local Open Scope string_scope.
Local Open Scope Z_scope.
Local Open Scope list_scope.

(** ** Python primitives *)

Module Py.

(** [sep.join(l)] *)
Fixpoint join (sep : string) (l : list string) : string :=
  match l with
  | [] => EmptyString
  | x :: rest =>
      match rest with
      | [] => x
      | _ :: _ => (x ++ sep ++ join sep rest)%string
      end
  end.

(** [str(n)] for a Python or numpy integer. *)
Definition str_int (z : Z) : string := NilZero.string_of_int (Z.to_int z).

(** [c.isspace()] for an ASCII character. *)
Definition isspace (c : ascii) : bool :=
  let n := Z.of_nat (nat_of_ascii c) in
  ((9 <=? n) && (n <=? 13)) || ((28 <=? n) && (n <=? 32)).

(** [not s.strip()]: the text is empty once surrounding blanks are removed. *)
Fixpoint strip_is_empty (s : string) : bool :=
  match s with
  | EmptyString => true
  | String c rest => isspace c && strip_is_empty rest
  end.

(** Rounding of an exact rational to the nearest integer, ties to even. *)
Definition round_half_even (q : Q) : Z :=
  let n := Qnum q in
  let d := Zpos (Qden q) in
  let fl := n / d in
  match (2 * (n mod d) ?= d) with
  | Lt => fl
  | Gt => fl + 1
  | Eq => if Z.even fl then fl else fl + 1
  end.

Definition two_digits (n : Z) : string :=
  if n <? 10 then ("0" ++ str_int n)%string else str_int n.

(** [f"{x:.2f}"] for a number [x]. *)
Definition fmt2 (x : Q) : string :=
  let c := Z.abs (round_half_even (x * 100)%Q) in
  let sign := if Qnum x <? 0 then "-" else EmptyString in
  let units := str_int (c / 100) in
  let cents := two_digits (c mod 100) in
  (sign ++ units ++ "." ++ cents)%string.

(** A number that may be [nan] (only [Series.mean] of an empty series
    produces one in this program). *)
Inductive number : Type :=
| Num (q : Q)
| NaN.

Definition fmt2_number (x : number) : string :=
  match x with
  | Num q => fmt2 q
  | NaN => "nan"
  end.

End Py.

(** ** Data model *)

(** A parsed [Date] cell: calendar day (proleptic ordinal) and time of day. *)
Record Timestamp : Type := mkTimestamp {
  ts_day : Z;
  ts_seconds : Z
}.

(** One record after the cleaning step (lines 103-107).  [Vid] cells are
    integer tokens; a missing or unparseable cell is [None]. *)
Record Row : Type := mkRow {
  Date : option Timestamp;
  Amount : option Q;
  Commission : option Q;
  Vat : option Q;
  Vid : option Z;
  Channel_Type : option string
}.

(** [df['Date_only'] = df['Date'].dt.date] *)
Definition Date_only (r : Row) : option Z := option_map ts_day (Date r).

Definition DataFrame : Type := list Row.

(** What [pd.read_csv(file, sep='\t', skiprows=1, header=0)] hands back for an
    upload: the header names and the records.  Cleaning works cell by cell, so
    the records are carried in their cleaned form from the start. *)
Record UploadedFile : Type := mkFile {
  file_name : string;
  file_columns : list string;
  file_rows : DataFrame
}.

(** dtype of the [Vid] column after [pd.to_numeric]: integers stay [int64]
    unless some cell is missing, which forces [float64]. *)
Inductive dtype : Type := int64 | float64.

Definition is_some {A : Type} (o : option A) : bool :=
  match o with Some _ => true | None => false end.

Definition vid_dtype (df : DataFrame) : dtype :=
  if forallb (fun r => is_some (Vid r)) df then int64 else float64.

(** [str(v)] / [astype(str)] of a [Vid] value under the column's dtype. *)
Definition vid_str (dt : dtype) (v : option Z) : string :=
  match v with
  | None => "nan"
  | Some z =>
      match dt with
      | int64 => Py.str_int z
      | float64 => (Py.str_int z ++ ".0")%string
      end
  end.

(** ** Loader (lines 84-100) *)

Definition expected_columns : list string :=
  ["Date"; "Amount"; "Commission"; "Vat"; "Vid"; "Channel Type"].

(** [all(col in df_temp.columns for col in expected_columns)] *)
Definition has_expected_columns (f : UploadedFile) : bool :=
  forallb (fun col => existsb (String.eqb col) (file_columns f)) expected_columns.

Definition schema_error (f : UploadedFile) : string :=
  ("File " ++ file_name f ++ " does not have the expected columns: "
     ++ Py.join ", " expected_columns)%string.

(** The [for file in uploaded_files] loop; [inl] is [st.error] followed by
    [st.stop()], [inr] the list [dfs] once the loop is over. *)
Fixpoint read_files (uploaded_files : list UploadedFile) (dfs : list DataFrame)
  : string + list DataFrame :=
  match uploaded_files with
  | [] => inr dfs
  | file :: rest =>
      if has_expected_columns file
      then read_files rest (dfs ++ [file_rows file])
      else inl (schema_error file)
  end.


(** ** Filters (lines 143-147) *)

(** [df['Vid'].isin(selected_vids)], row by row; a missing [Vid] is never
    among the offered options. *)
Definition vid_isin (selected_vids : list Z) (r : Row) : bool :=
  match Vid r with
  | Some v => existsb (Z.eqb v) selected_vids
  | None => false
  end.

(** [metrics_df['Channel Type'].isin(selected_channels)], row by row. *)
Definition channel_isin (selected_channels : list string) (r : Row) : bool :=
  match Channel_Type r with
  | Some c => existsb (String.eqb c) selected_channels
  | None => false
  end.

(** [df[df['Vid'].isin(selected_vids) if selected_vids else True]].
    With an empty selection the index is the scalar [True]; pandas looks it
    up as a column label and raises [KeyError(True)], whose text is [True]. *)
Definition select_metrics_df (df : DataFrame) (selected_vids : list Z)
  : string + DataFrame :=
  match selected_vids with
  | [] => inl "True"
  | _ :: _ => inr (filter (vid_isin selected_vids) df)
  end.

Definition select_filtered_df (metrics_df : DataFrame)
    (selected_channels : list string) : DataFrame :=
  filter (channel_isin selected_channels) metrics_df.

(** *** The options offered in the sidebar (lines 118 and 127) *)

Fixpoint unique_str (l : list string) : list string :=
  match l with
  | [] => []
  | x :: rest => x :: filter (fun y => negb (String.eqb x y)) (unique_str rest)
  end.

(** [df['Channel Type'].dropna().unique().tolist()] *)
Definition channel_types (df : DataFrame) : list string :=
  unique_str
    (flat_map (fun r => match Channel_Type r with Some c => [c] | None => [] end) df).

Fixpoint insert_vid (v : Z) (l : list Z) : list Z :=
  match l with
  | [] => [v]
  | x :: rest =>
      if v <? x then v :: l
      else if v =? x then l
      else x :: insert_vid v rest
  end.

(** [sorted(df['Vid'].dropna().unique())] *)
Definition vids (df : DataFrame) : list Z :=
  fold_left
    (fun acc r => match Vid r with Some v => insert_vid v acc | None => acc end)
    df [].

(** ** Vendor mapping (lines 149-158) *)

(** Keys of the dictionary the mapping text evaluates to. *)
Inductive PyKey : Type :=
| KInt (z : Z)
| KStr (s : string).

Definition PyDict : Type := list (PyKey * string).

(** What [eval(mapping_input)] does: raise an [Exception] (carried as its
    text) or return a dictionary of display names. *)
Inductive EvalResult : Type :=
| Raises (e : string)
| Returns (d : PyDict).

(** Python equality between a numeric [Vid] and a dictionary key: a number
    never equals a string. *)
Definition key_eq (v : Z) (k : PyKey) : bool :=
  match k with
  | KInt z => Z.eqb z v
  | KStr _ => false
  end.

Fixpoint dict_get (d : PyDict) (v : Z) : option string :=
  match d with
  | [] => None
  | (k, display) :: rest => if key_eq v k then Some display else dict_get rest v
  end.

(** One cell of [frame['Vid'].map(vendor_map).fillna(frame['Vid'].astype(str))]. *)
Definition vendor_name (vendor_map : PyDict) (dt : dtype) (r : Row) : string :=
  match Vid r with
  | Some v =>
      match dict_get vendor_map v with
      | Some display => display
      | None => vid_str dt (Some v)
      end
  | None => vid_str dt None
  end.

Definition default_vendor_map : PyDict := [(KInt 254499, "Vendlite")].

Definition mapping_warning (e : string) : string :=
  ("Invalid mapping format: " ++ e
     ++ ". Using default mapping (254499: Vendlite).")%string.

(** ** Metrics (lines 160-176) *)

Local Open Scope Q_scope.

(** [frame['Channel Type'] == c], row by row. *)
Definition channel_is (c : string) (r : Row) : bool :=
  match Channel_Type r with
  | Some s => String.eqb s c
  | None => false
  end.

(** [frame[col].sum()]: missing cells are skipped, the empty sum is 0. *)
Fixpoint col_sum (col : Row -> option Q) (frame : DataFrame) : Q :=
  match frame with
  | [] => 0
  | r :: rest =>
      match col r with
      | Some x => x + col_sum col rest
      | None => col_sum col rest
      end
  end.

Definition len_Q {A : Type} (l : list A) : Q := inject_Z (Z.of_nat (List.length l)).

Record Metrics : Type := mkMetrics {
  total_revenue : Q;
  total_refunds : Q;
  bank_transfer_charges : Q;
  vat_bank_transfer : Q;
  nayax_commission : Q;
  bck_commission : Q;
  ipay_commission : Q;
  total_vat : Q;
  amount_to_remit : Q
}.

(** Lines 161-176, on [metrics_df] and the list [dfs] of loaded frames. *)
Definition calc_metrics (metrics_df : DataFrame) (dfs : list DataFrame) : Metrics :=
  let c2b_metrics := filter (channel_is "C2B") metrics_df in
  let total_revenue := col_sum Amount c2b_metrics in
  let total_refunds := Qabs (col_sum Amount (filter (channel_is "REFUND") metrics_df)) in
  let bank_transfer_charges := 50 * len_Q dfs in
  let vat_bank_transfer := bank_transfer_charges * (16 # 100) in
  let nayax_commission := col_sum Amount c2b_metrics * (1 # 100) in
  let bck_commission := col_sum Amount c2b_metrics * (5 # 1000) in
  let ipay_commission := col_sum Commission metrics_df in
  let total_vat := col_sum Vat metrics_df in
  let amount_to_remit :=
    total_revenue -
    (total_refunds + ipay_commission + bank_transfer_charges +
     vat_bank_transfer + nayax_commission + bck_commission + total_vat) in
  mkMetrics total_revenue total_refunds bank_transfer_charges vat_bank_transfer
    nayax_commission bck_commission ipay_commission total_vat amount_to_remit.

(** ['BANKCOST' in filtered_df['Channel Type'].values] *)
Definition has_bankcost (filtered_df : DataFrame) : bool :=
  existsb (channel_is "BANKCOST") filtered_df.

(** Lines 162 and 225-236, on [filtered_df]. *)
Definition calc_report (filtered_df : DataFrame) (dfs : list DataFrame) : Metrics :=
  let c2b_filtered := filter (channel_is "C2B") filtered_df in
  let report_total_revenue := col_sum Amount c2b_filtered in
  let report_total_refunds :=
    Qabs (col_sum Amount (filter (channel_is "REFUND") filtered_df)) in
  let report_bank_transfer_charges :=
    if has_bankcost filtered_df then 50 * len_Q dfs else 0 in
  let report_vat_bank_transfer := report_bank_transfer_charges * (16 # 100) in
  let report_nayax_commission := col_sum Amount c2b_filtered * (1 # 100) in
  let report_bck_commission := col_sum Amount c2b_filtered * (5 # 1000) in
  let report_ipay_commission := col_sum Commission filtered_df in
  let report_total_vat := col_sum Vat filtered_df in
  let report_amount_to_remit :=
    report_total_revenue -
    (report_total_refunds + report_ipay_commission + report_bank_transfer_charges +
     report_vat_bank_transfer + report_nayax_commission + report_bck_commission +
     report_total_vat) in
  mkMetrics report_total_revenue report_total_refunds report_bank_transfer_charges
    report_vat_bank_transfer report_nayax_commission report_bck_commission
    report_ipay_commission report_total_vat report_amount_to_remit.

(** ** Average daily revenue (lines 185-190) *)

Definition date_eqb (a b : option Z) : bool :=
  match a, b with
  | Some x, Some y => Z.eqb x y
  | None, None => true
  | _, _ => false
  end.

(** [series.unique()]: the distinct values in order of first appearance; the
    missing value, when present, is one of them. *)
Fixpoint unique (l : list (option Z)) : list (option Z) :=
  match l with
  | [] => []
  | x :: rest => x :: filter (fun y => negb (date_eqb x y)) (unique rest)
  end.

(** One step of the aggregation behind [groupby(...)[col].sum()]: the groups
    are kept in ascending key order. *)
Fixpoint group_add (d : Z) (x : Q) (groups : list (Z * Q)) : list (Z * Q) :=
  match groups with
  | [] => [(d, x)]
  | (d', s) :: rest =>
      if (d <? d')%Z then (d, x) :: groups
      else if (d =? d')%Z then (d', s + x) :: rest
      else (d', s) :: group_add d x rest
  end.

Definition nan_to_zero (x : option Q) : Q :=
  match x with Some q => q | None => 0 end.

(** [frame.groupby('Date_only')[col].sum()]: rows without a date belong to no
    group; within a group missing cells add nothing. *)
Definition groupby_date_sum (col : Row -> option Q) (frame : DataFrame)
  : list (Z * Q) :=
  fold_left
    (fun groups r =>
       match Date_only r with
       | Some d => group_add d (nan_to_zero (col r)) groups
       | None => groups
       end)
    frame [].

Definition Qsum (l : list Q) : Q := fold_right Qplus 0 l.

(** [series.mean()]: [nan] on an empty series. *)
Definition mean (l : list Q) : Py.number :=
  match l with
  | [] => Py.NaN
  | _ :: _ => Py.Num (Qsum l / len_Q l)
  end.

(** The value shown on the [Avg Daily Revenue (KES)] tile. *)
Definition avg_daily_tile (metrics_df : DataFrame) : string :=
  if (0 <? List.length (unique (map Date_only metrics_df)))%nat
  then
    let daily_rev := groupby_date_sum Amount metrics_df in
    let avg_daily := mean (map snd daily_rev) in
    Py.fmt2_number avg_daily
  else "0.00".

(** ** What is shown (lines 179-215) and the report (lines 219-270) *)

Definition key_metric_tiles (metrics_df : DataFrame) (m : Metrics)
  : list (string * string) :=
  let c2b_metrics := filter (channel_is "C2B") metrics_df in
  [ ("Total Revenue (KES)", Py.fmt2 (total_revenue m));
    ("Avg Daily Revenue (KES)", avg_daily_tile metrics_df);
    ("Total C2B Transactions", Py.str_int (Z.of_nat (List.length c2b_metrics)));
    ("Ipay Commissions (KES)", Py.fmt2 (ipay_commission m));
    ("Total VAT (KES)", Py.fmt2 (total_vat m));
    ("Total Refunds (KES)", Py.fmt2 (total_refunds m));
    ("Bank Transfer Charges (KES)", Py.fmt2 (bank_transfer_charges m));
    ("VAT on Bank Transfer (KES)", Py.fmt2 (vat_bank_transfer m));
    ("Nayax Commission (KES)", Py.fmt2 (nayax_commission m));
    ("BCK Commission (KES)", Py.fmt2 (bck_commission m));
    ("Amount to be Remitted (KES)", Py.fmt2 (amount_to_remit m)) ].

Definition filters_applied (dt : dtype) (selected_channels : list string)
    (selected_vids : list Z) : string :=
  let channels :=
    match selected_channels with
    | [] => "All"
    | _ :: _ => Py.join ", " selected_channels
    end in
  let vendors :=
    match selected_vids with
    | [] => "All"
    | _ :: _ => Py.join ", " (map (fun v => vid_str dt (Some v)) selected_vids)
    end in
  ("Channel Types: " ++ channels ++ ", Vendor IDs: " ++ vendors)%string.

(** [report_data], without the [Generated On] and [Date Range] lines. *)
Definition report_table (uploaded_files : list UploadedFile)
    (filters : string) (rm : Metrics) : list (string * string) :=
  [ ("Uploaded Files", Py.join ", " (map file_name uploaded_files));
    ("Filters Applied", filters);
    ("Total Revenue", Py.fmt2 (total_revenue rm));
    ("Total Refunds", Py.fmt2 (total_refunds rm));
    ("Ipay Commissions", Py.fmt2 (ipay_commission rm));
    ("Bank Transfer Charges", Py.fmt2 (bank_transfer_charges rm));
    ("VAT on Bank Transfer (16%)", Py.fmt2 (vat_bank_transfer rm));
    ("Nayax Commission (1% of C2B)", Py.fmt2 (nayax_commission rm));
    ("BCK Commission (0.5% of C2B)", Py.fmt2 (bck_commission rm));
    ("Total VAT", Py.fmt2 (total_vat rm));
    ("Amount to be Remitted", Py.fmt2 (amount_to_remit rm)) ].

(** Everything one completed pass puts on the page. *)
Record Dashboard : Type := mkDashboard {
  metrics_df : DataFrame;
  filtered_df : DataFrame;
  sidebar_error : option string;
  vendor_map : PyDict;
  metrics_vendor_name : list string;
  filtered_vendor_name : list string;
  metrics : Metrics;
  tiles : list (string * string);
  report_metrics : Metrics;
  report : list (string * string)
}.

Inductive Outcome : Type :=
| NoUpload                     (* [st.info]: nothing uploaded yet *)
| Stopped (msg : string)       (* [st.error(msg)] then [st.stop()] *)
| Crashed (msg : string)       (* the outer [except Exception]: [st.error(msg)] *)
| Rendered (d : Dashboard).

Definition crash_message (e : string) : string :=
  ("Error loading files: " ++ e
     ++ ". Ensure all files are valid tab-separated files with the same structure.")%string.

(** ** The script *)

Section Script.

(** Python's [eval] on the mapping text, as a function of the text: the text
    is taken not to touch the frames while it is evaluated (a text that fails
    to parse runs nothing at all). *)
Variable py_eval : string -> EvalResult.

(** Lines 150-158: the dictionary in force and the sidebar warning, if any. *)
Definition parse_vendor_map (mapping_input : string) : PyDict * option string :=
  match (if Py.strip_is_empty mapping_input then Returns [] else py_eval mapping_input) with
  | Returns d => (d, None)
  | Raises e => (default_vendor_map, Some (mapping_warning e))
  end.

(** Lines 102-270 once [dfs] is known. *)
Definition analyse (uploaded_files : list UploadedFile) (dfs : list DataFrame)
    (selected_channels : list string) (selected_vids : list Z)
    (mapping_input : string) : Outcome :=
  let df := List.concat dfs in
  let dt := vid_dtype df in
  match select_metrics_df df selected_vids with
  | inl e => Crashed (crash_message e)
  | inr metrics_df =>
      let filtered_df := select_filtered_df metrics_df selected_channels in
      let (vendor_map, warning) := parse_vendor_map mapping_input in
      let m := calc_metrics metrics_df dfs in
      let rm := calc_report filtered_df dfs in
      Rendered
        (mkDashboard metrics_df filtered_df warning vendor_map
           (map (vendor_name vendor_map dt) metrics_df)
           (map (vendor_name vendor_map dt) filtered_df)
           m (key_metric_tiles metrics_df m)
           rm (report_table uploaded_files
                 (filters_applied dt selected_channels selected_vids) rm))
  end.

(** Lines 82-100 and 376-377. *)
Definition run (uploaded_files : list UploadedFile)
    (selected_channels : list string) (selected_vids : list Z)
    (mapping_input : string) : Outcome :=
  match uploaded_files with
  | [] => NoUpload
  | _ :: _ =>
      match read_files uploaded_files [] with
      | inl msg => Stopped msg
      | inr [] => Stopped "No valid data loaded from the uploaded files."
      | inr (df0 :: more) =>
          analyse uploaded_files (df0 :: more) selected_channels selected_vids
            mapping_input
      end
  end.

End Script.

(** ** Statements about the script *)

(** A file lacks a required column. *)
Definition lacks_required_column (f : UploadedFile) : Prop :=
  exists col, In col expected_columns /\ ~ In col (file_columns f).

(** A batch that gets through the loader: at least one upload, and no upload
    lacks a required column. *)
Definition valid_batch (files : list UploadedFile) : Prop :=
  files <> [] /\ forall f, In f files -> ~ lacks_required_column f.

(** The rows of a frame that pass the vendor filter and the channel filter. *)
Definition rows_passing_both (df : DataFrame) (selected_vids : list Z)
    (selected_channels : list string) : DataFrame :=
  filter (fun r => vid_isin selected_vids r && channel_isin selected_channels r) df.

(** The statement that the report total is the metrics-view computation,
    bank charge included, run on the rows passing both filters. *)
Definition report_is_metrics_formula (files : list UploadedFile)
    (selected_vids : list Z) (selected_channels : list string) (d : Dashboard)
  : Prop :=
  let dfs := map file_rows files in
  amount_to_remit (report_metrics d) ==
  amount_to_remit
    (calc_metrics (rows_passing_both (List.concat dfs) selected_vids selected_channels) dfs).

(** The key-metrics area of the page, when the pass reaches it. *)
Definition shown_metrics (o : Outcome)
  : option (DataFrame * Metrics * list (string * string)) :=
  match o with
  | Rendered d => Some (metrics_df d, metrics d, tiles d)
  | _ => None
  end.

(** The text under a tile or report label. *)
Fixpoint lookup (label : string) (table : list (string * string)) : option string :=
  match table with
  | [] => None
  | (l, v) :: rest => if String.eqb l label then Some v else lookup label rest
  end.

(** A vendor selection that matches no row of the frame. *)
Definition matches_no_row (df : DataFrame) (selected_vids : list Z) : Prop :=
  forall r, In r df -> vid_isin selected_vids r = false.

(** The mapping text is not blank and [eval] raises on it. *)
Definition mapping_parse_fails (py_eval : string -> EvalResult) (text e : string)
  : Prop :=
  Py.strip_is_empty text = false /\ py_eval text = Raises e.

(** Every key of the dictionary is a string. *)
Definition string_keyed (d : PyDict) : Prop :=
  forall k display, In (k, display) d -> exists s, k = KStr s.

(** *** Daily averages, stated on the rows *)

(** The dates carried by the rows of a view. *)
Definition dated (view : DataFrame) : list Z :=
  flat_map (fun r => match Date_only r with Some d => [d] | None => [] end) view.

Definition distinct_days (view : DataFrame) : list Z := nodup Z.eq_dec (dated view).

Definition on_day (d : Z) (r : Row) : bool := date_eqb (Date_only r) (Some d).

(** Sum of [Amount] over the rows of one day. *)
Definition day_total (view : DataFrame) (d : Z) : Q :=
  col_sum Amount (filter (on_day d) view).

(** Arithmetic mean, over the distinct days of a view, of the day totals. *)
Definition mean_day_total (view : DataFrame) : Q :=
  Qsum (map (day_total view) (distinct_days view)) / len_Q (distinct_days view).

(** The specification's reading of avg_daily_revenue: the mean of the day
    totals of the C2B rows only, and zero when no C2B row has a date. *)
Definition avg_daily_revenue_c2b (view : DataFrame) : Q :=
  let c2b := filter (channel_is "C2B") view in
  match distinct_days c2b with
  | [] => 0
  | _ :: _ => mean_day_total c2b
  end.

(** The statement that the tile shows that reading. *)
Definition avg_tile_is_c2b_mean (view : DataFrame) : Prop :=
  avg_daily_tile view = Py.fmt2 (avg_daily_revenue_c2b view).

(** The sum a list of groups records for a day (0 when the day has no group). *)
Definition group_value (d : Z) (groups : list (Z * Q)) : Q :=
  Qsum (map snd (filter (fun g => Z.eqb (fst g) d) groups)).

(** The row carries one of the given days. *)
Definition day_in (days : list Z) (r : Row) : bool :=
  match Date_only r with
  | Some d => existsb (Z.eqb d) days
  | None => false
  end.

(** *** The remittance in binary64 *)

(** Lines 165-176 on IEEE doubles, from the four column sums and the number
    of files. *)
Definition amount_to_remit_binary64
    (c2b_amount refund_amount commission vat files : PrimFloat.float)
  : PrimFloat.float :=
  let total_revenue := c2b_amount in
  let total_refunds := PrimFloat.abs refund_amount in
  let bank_transfer_charges := PrimFloat.mul 50%float files in
  let vat_bank_transfer := PrimFloat.mul bank_transfer_charges 0.16%float in
  let nayax_commission := PrimFloat.mul c2b_amount 0.01%float in
  let bck_commission := PrimFloat.mul c2b_amount 0.005%float in
  PrimFloat.sub total_revenue
    (PrimFloat.add (PrimFloat.add (PrimFloat.add (PrimFloat.add (PrimFloat.add
       (PrimFloat.add total_refunds commission) bank_transfer_charges)
       vat_bank_transfer) nayax_commission) bck_commission) vat).

(** ** Sample data *)

Definition vendlite : Z := 254499%Z.

(** Scenario A: a sale, a refund, and a bank-cost line without amount. *)
Definition scenario_A (d1 d2 d3 : option Timestamp) (v1 v2 v3 : option Z) : DataFrame :=
  [ mkRow d1 (Some 1000) (Some 0) (Some 0) v1 (Some "C2B");
    mkRow d2 (Some (-200)) (Some 0) (Some 0) v2 (Some "REFUND");
    mkRow d3 None (Some 5) (Some 10) v3 (Some "BANKCOST") ].

Definition day (n : Z) : option Timestamp := Some (mkTimestamp n 0).

Definition all_columns : list string :=
  ["Date"; "Code"; "Amount"; "Commission"; "Vat"; "Vid"; "Channel Type";
   "Running Balance"].

Definition file_A : UploadedFile :=
  mkFile "sales_a.csv" all_columns
    (scenario_A (day 739000) (day 739000) (day 739001)
       (Some vendlite) (Some vendlite) (Some vendlite)).

(** An upload whose header has no [Vat] column. *)
Definition file_no_vat : UploadedFile :=
  mkFile "broken.csv" ["Date"; "Amount"; "Commission"; "Vid"; "Channel Type"] [].

Definition dq : string := String (ascii_of_nat 34) EmptyString.

(** The text the mapping box starts with (line 138). *)
Definition default_mapping_text : string :=
  ("{" ++ dq ++ "254499" ++ dq ++ ": " ++ dq ++ "Vendlite" ++ dq ++ "}")%string.

(** [eval] on the few texts the examples use: the default text, the same
    dictionary with a numeric key, and anything else taken as a syntax error. *)
Definition sample_eval (text : string) : EvalResult :=
  if String.eqb text default_mapping_text
  then Returns [(KStr "254499", "Vendlite")]
  else if String.eqb text "{254499: 'Vendlite'}"
  then Returns [(KInt 254499, "Vendlite")]
  else Raises "invalid syntax (<string>, line 1)".

(** An upload in which one record has no vendor: the column is [float64]. *)
Definition file_gap : UploadedFile :=
  mkFile "sales_gap.csv" all_columns
    [ mkRow (day 739000) (Some 1000) (Some 0) (Some 0) (Some vendlite) (Some "C2B");
      mkRow (day 739001) (Some 250) (Some 0) (Some 0) None (Some "C2B") ].

(** A sale and a refund on the same day. *)
Definition same_day_view : DataFrame :=
  [ mkRow (day 739000) (Some 1000) (Some 0) (Some 0) (Some vendlite) (Some "C2B");
    mkRow (day 739000) (Some (-200)) (Some 0) (Some 0) (Some vendlite) (Some "REFUND") ].

Definition all_channels : list string := ["C2B"; "REFUND"; "BANKCOST"].

(** A view without any date, and a view with a dated refund only. *)
Definition undated_view : DataFrame :=
  [ mkRow None (Some 1000) (Some 0) (Some 0) (Some vendlite) (Some "C2B") ].

Definition refund_only_view : DataFrame :=
  [ mkRow (day 739000) (Some (-200)) (Some 0) (Some 0) (Some vendlite) (Some "REFUND") ].


From Stdlib Require OrderedTypeEx.

(** ** The rest of the pass: cleaning of [Code], charts (lines 108-109, 294-351) *)

(** [s.lstrip("'")] and [s.rstrip("'")] *)
Fixpoint lstrip_quote (s : string) : string :=
  match s with
  | EmptyString => EmptyString
  | String c rest => if Ascii.eqb c "'" then lstrip_quote rest else s
  end.

Fixpoint rstrip_quote (s : string) : string :=
  match s with
  | EmptyString => EmptyString
  | String c rest =>
      match rstrip_quote rest with
      | EmptyString => if Ascii.eqb c "'" then EmptyString else String c EmptyString
      | String c' rest' => String c (String c' rest')
      end
  end.

(** One cell of [df['Code'].astype(str).str.strip("'")] (line 109). *)
Definition clean_code (code : string) : string := rstrip_quote (lstrip_quote code).

(** [n] single quotes in a row. *)
Fixpoint quotes (n : nat) : string :=
  match n with
  | O => EmptyString
  | S k => String "'" (quotes k)
  end.

(** The text neither starts nor ends with a single quote. *)
Definition quote_free_ends (s : string) : Prop :=
  lstrip_quote s = s /\ rstrip_quote s = s.

(** [series.cumsum()] *)
Fixpoint cumsum_from (acc : Q) (l : list Q) : list Q :=
  match l with
  | [] => []
  | x :: rest => (acc + x) :: cumsum_from (acc + x) rest
  end.

Definition cumsum (l : list Q) : list Q :=
  match l with
  | [] => []
  | x :: rest => x :: cumsum_from x rest
  end.

(** [daily_revenue.sort_values('Date_only')], as an insertion sort. *)
Fixpoint insert_by_date (g : Z * Q) (l : list (Z * Q)) : list (Z * Q) :=
  match l with
  | [] => [g]
  | h :: rest =>
      if (fst g <=? fst h)%Z then g :: l else h :: insert_by_date g rest
  end.

Definition sort_values_date (l : list (Z * Q)) : list (Z * Q) :=
  fold_right insert_by_date [] l.

(** One line of the [daily_revenue] frame: [Date_only], [Amount], [Cumulative]. *)
Record DailyRevenue : Type := mkDaily {
  dr_date : Z;
  dr_amount : Q;
  dr_cumulative : Q
}.

(** Lines 297-300. *)
Definition daily_revenue (filtered_df : DataFrame) : list DailyRevenue :=
  let grouped := groupby_date_sum Amount filtered_df in
  let sorted := sort_values_date grouped in
  map (fun gc => mkDaily (fst (fst gc)) (snd (fst gc)) (snd gc))
    (combine sorted (cumsum (map snd sorted))).

(** One step of [groupby('Vendor Name')[...].sum()]: groups in ascending
    order of the name. *)
Fixpoint group_add_name (n : string) (x : Q) (groups : list (string * Q))
  : list (string * Q) :=
  match groups with
  | [] => [(n, x)]
  | (n', s) :: rest =>
      if String.ltb n n' then (n, x) :: groups
      else if String.eqb n n' then (n', s + x) :: rest
      else (n', s) :: group_add_name n x rest
  end.

(** [c2b_filtered.groupby('Vendor Name')['Amount'].sum().reset_index()]
    (line 341), on the rows paired with their [Vendor Name] cell. *)
Definition vendor_rev (c2b_filtered : list (Row * string)) : list (string * Q) :=
  fold_left
    (fun groups rn => group_add_name (snd rn) (nan_to_zero (Amount (fst rn))) groups)
    c2b_filtered [].

(** What the chart area shows once it is drawn: the cumulative line, the
    daily bars and the vendor pie, the last two only when they have data. *)
Record Charts : Type := mkCharts {
  fig_cum : list DailyRevenue;
  fig_daily : option (list DailyRevenue);
  fig_pie : option (list (string * Q))
}.

(** Text of the [NameError] raised by line 323 when line 297 never ran. *)
Definition daily_revenue_undefined : string := "name 'daily_revenue' is not defined".

(** Lines 294-351, on [filtered_df] and its [Vendor Name] column.  With an
    empty view only the [else] branch of line 296 runs, so the name
    [daily_revenue] read by line 323 is unbound; [inl] carries the text of
    the exception, which the outer handler shows through [crash_message]. *)
Definition draw_charts (filtered_df : DataFrame) (names : list string)
  : string + Charts :=
  match filtered_df with
  | [] => inl daily_revenue_undefined
  | _ :: _ =>
      let daily := daily_revenue filtered_df in
      let c2b_filtered :=
        filter (fun rn => channel_is "C2B" (fst rn)) (combine filtered_df names) in
      inr (mkCharts daily
             (if (0 <? List.length daily)%nat then Some daily else None)
             (if (0 <? List.length c2b_filtered)%nat
              then Some (vendor_rev c2b_filtered) else None))
  end.

(** ** Reading the uploads (line 88) *)

(** An upload as the loop meets it: its name, and what
    [pd.read_csv(file, sep='\t', skiprows=1, header=0)] does with it, raise
    (carried as the text of the exception, for instance on a file without a
    header line) or return the header names and the records. *)
Record Upload : Type := mkUpload {
  upload_name : string;
  read_csv : string + (list string * DataFrame)
}.

(** The frame of an upload that was read, under the upload's name. *)
Definition as_file (u : Upload) : UploadedFile :=
  match read_csv u with
  | inr (columns, rows) => mkFile (upload_name u) columns rows
  | inl _ => mkFile (upload_name u) [] []
  end.

Definition upload_rows (u : Upload) : DataFrame := file_rows (as_file u).

(** How the loop of lines 87-93 ends. *)
Inductive Loading : Type :=
| Raised (e : string)          (* [read_csv] raised: the outer [except] *)
| Refused (msg : string)       (* [st.error(msg)] then [st.stop()] *)
| Loaded (dfs : list DataFrame).

(** Lines 87-93 with [read_csv] in them: each upload is read, then checked,
    then appended; the first upload that cannot be read or fails the check
    ends the loop. *)
Fixpoint load_uploads (uploads : list Upload) (dfs : list DataFrame) : Loading :=
  match uploads with
  | [] => Loaded dfs
  | file :: rest =>
      match read_csv file with
      | inl e => Raised e
      | inr (columns, rows) =>
          let df_temp := mkFile (upload_name file) columns rows in
          if has_expected_columns df_temp
          then load_uploads rest (dfs ++ [rows])
          else Refused (schema_error df_temp)
      end
  end.

(** Lines 82-270 from the uploads themselves. *)
Definition run_uploads (py_eval : string -> EvalResult) (uploads : list Upload)
    (selected_channels : list string) (selected_vids : list Z)
    (mapping_input : string) : Outcome :=
  match uploads with
  | [] => NoUpload
  | _ :: _ =>
      match load_uploads uploads [] with
      | Raised e => Crashed (crash_message e)
      | Refused msg => Stopped msg
      | Loaded [] => Stopped "No valid data loaded from the uploaded files."
      | Loaded (df0 :: more) =>
          analyse py_eval (map as_file uploads) (df0 :: more) selected_channels
            selected_vids mapping_input
      end
  end.

(** The upload is read and has every expected column. *)
Definition upload_ok (u : Upload) : bool :=
  match read_csv u with
  | inl _ => false
  | inr (columns, rows) => has_expected_columns (mkFile (upload_name u) columns rows)
  end.

(** The upload is read and its header lacks a required column. *)
Definition upload_lacks_column (u : Upload) : Prop :=
  exists columns rows,
    read_csv u = inr (columns, rows) /\
    lacks_required_column (mkFile (upload_name u) columns rows).

(** The error of the column check for an upload of that name. *)
Definition names_file (u : Upload) : string :=
  ("File " ++ upload_name u ++
   " does not have the expected columns: Date, Amount, Commission, Vat, Vid, Channel Type")%string.

(** The statement that loading a batch fails with the error naming [u]. *)
Definition loading_names (py_eval : string -> EvalResult) (uploads : list Upload)
    (u : Upload) : Prop :=
  forall sc sv text, run_uploads py_eval uploads sc sv text = Stopped (names_file u).

(** How a pass ends before the metrics (before line 161), if it does. *)
Inductive EarlyExit : Type :=
| InfoOnly                     (* nothing uploaded *)
| StopWith (msg : string)      (* [st.error(msg)] then [st.stop()] *)
| ErrorWith (msg : string).    (* the outer [except] *)

Definition early_exit (o : Outcome) : option EarlyExit :=
  match o with
  | NoUpload => Some InfoOnly
  | Stopped msg => Some (StopWith msg)
  | Crashed msg => Some (ErrorWith msg)
  | Rendered _ => None
  end.

(** Lines 186-187: [avg_daily = daily_rev.mean()]. *)
Definition avg_daily (metrics_df : DataFrame) : Py.number :=
  mean (map snd (groupby_date_sum Amount metrics_df)).

(** *** Statements used below *)

(** The row has a vendor id / a channel type. *)
Definition has_vid (r : Row) : bool := is_some (Vid r).
Definition has_channel (r : Row) : bool := is_some (Channel_Type r).

(** The row is dated on or before the given day. *)
Definition on_or_before (d : Z) (r : Row) : bool :=
  match Date_only r with
  | Some x => (x <=? d)%Z
  | None => false
  end.

(** The figures of a pass, or the way it ended without any. *)
Definition figures (o : Outcome)
  : Outcome +
    (DataFrame * DataFrame * Metrics * list (string * string) * Metrics *
     list (string * string)) :=
  match o with
  | Rendered d =>
      inr (metrics_df d, filtered_df d, metrics d, tiles d, report_metrics d, report d)
  | _ => inl o
  end.

(** No two keys of the dictionary are the same. *)
Definition distinct_keys (d : PyDict) : Prop := NoDup (map fst d).

(** Lexical order on names, as Python compares strings. *)
Definition name_lt : string -> string -> Prop := OrderedTypeEx.String_as_OT.lt.

(** The names carried by the rows of a vendor-paired frame. *)
Definition named (n : string) (rn : Row * string) : bool := String.eqb (snd rn) n.

(** The sum a list of vendor groups records for a name. *)
Definition name_value (n : string) (groups : list (string * Q)) : Q :=
  Qsum (map snd (filter (fun g => String.eqb (fst g) n) groups)).

(** Sum of [Amount] over paired rows. *)
Definition paired_amount (rows : list (Row * string)) : Q :=
  col_sum Amount (map fst rows).

(** *** More sample data *)

(** Two vendors, one of them mapped. *)
Definition file_two_vendors : UploadedFile :=
  mkFile "two.csv" all_columns
    [ mkRow (day 739002) (Some 300) (Some 3) (Some 1) (Some 254754%Z) (Some "C2B");
      mkRow (day 739000) (Some 1000) (Some 0) (Some 0) (Some vendlite) (Some "C2B");
      mkRow (day 739000) (Some (-200)) (Some 0) (Some 0) (Some vendlite) (Some "REFUND");
      mkRow (day 739001) (Some 50) (Some 5) (Some 10) (Some vendlite) (Some "BANKCOST");
      mkRow (day 739002) (Some 700) (Some 0) (Some 0) (Some 254754%Z) (Some "C2B") ].

(** Uploads: one that [read_csv] reads, one without a header line, and two
    that lack a column. *)
Definition upload_of (f : UploadedFile) : Upload :=
  mkUpload (file_name f) (inr (file_columns f, file_rows f)).

Definition upload_empty : Upload :=
  mkUpload "empty.csv" (inl "No columns to parse from file").

Definition file_no_amount : UploadedFile :=
  mkFile "short.csv" ["Date"; "Commission"; "Vat"; "Vid"; "Channel Type"] [].

(** The same header with the columns in another order and one more column. *)
Definition file_reordered : UploadedFile :=
  mkFile "reordered.csv"
    ["Channel Type"; "Vid"; "Till"; "Vat"; "Commission"; "Amount"; "Date"] [].
(** ** Formatting respects the value of a rational *)

Lemma round_half_even_Qeq (x y : Q) :
  x == y -> Py.round_half_even x = Py.round_half_even y.
Proof.
  destruct x as [n1 d1], y as [n2 d2]. unfold Qeq, Py.round_half_even.
  cbn [Qnum Qden]. intros E.
  assert (D1 : (0 < Zpos d1)%Z) by lia.
  assert (D2 : (0 < Zpos d2)%Z) by lia.
  assert (F : (n1 / Zpos d1 = n2 / Zpos d2)%Z).
  { rewrite <- (Z.div_mul_cancel_r n1 (Zpos d1) (Zpos d2)) by lia.
    rewrite E, (Z.mul_comm (Zpos d1)).
    apply Z.div_mul_cancel_r; lia. }
  assert (M : (n1 mod Zpos d1 * Zpos d2 = n2 mod Zpos d2 * Zpos d1)%Z).
  { rewrite !Z.mod_eq by lia. rewrite F. nia. }
  assert (C : (2 * (n1 mod Zpos d1) ?= Zpos d1)%Z = (2 * (n2 mod Zpos d2) ?= Zpos d2)%Z).
  { destruct (Z.compare_spec (2 * (n1 mod Zpos d1)) (Zpos d1)),
             (Z.compare_spec (2 * (n2 mod Zpos d2)) (Zpos d2));
      try reflexivity; exfalso; nia. }
  rewrite C, F. reflexivity.
Qed.

Lemma fmt2_Qeq (x y : Q) : x == y -> Py.fmt2 x = Py.fmt2 y.
Proof.
  intros E. unfold Py.fmt2.
  assert (R : Py.round_half_even (x * 100) = Py.round_half_even (y * 100)).
  { apply round_half_even_Qeq. rewrite E. reflexivity. }
  assert (S : (Qnum x <? 0)%Z = (Qnum y <? 0)%Z).
  { destruct x as [n1 d1], y as [n2 d2]. unfold Qeq in E. simpl in *.
    destruct (Z.ltb_spec n1 0), (Z.ltb_spec n2 0); try reflexivity; nia. }
  rewrite R, S. reflexivity.
Qed.

(** ** The loader *)

Lemma existsb_eqb_In (col : string) (cols : list string) :
  existsb (String.eqb col) cols = true <-> In col cols.
Proof.
  rewrite existsb_exists. split.
  - intros [c [Hin Heq]]. apply String.eqb_eq in Heq. subst. exact Hin.
  - intros Hin. exists col. split; [exact Hin | apply String.eqb_refl].
Qed.

Lemma forallb_false_exists {A : Type} (p : A -> bool) (l : list A) :
  forallb p l = false -> exists x, In x l /\ p x = false.
Proof.
  induction l as [|a l IH]; cbn [forallb]; [discriminate|].
  destruct (p a) eqn:Pa; cbn [andb]; intros H.
  - destruct (IH H) as [x [Hin Hx]]. exists x. split; [right; exact Hin | exact Hx].
  - exists a. split; [left; reflexivity | exact Pa].
Qed.

Lemma has_expected_columns_false (f : UploadedFile) :
  has_expected_columns f = false <-> lacks_required_column f.
Proof.
  unfold has_expected_columns, lacks_required_column. split.
  - intros H. apply forallb_false_exists in H. destruct H as [col [Hin Hno]].
    exists col. split; [exact Hin|].
    intros Hc. apply existsb_eqb_In in Hc. congruence.
  - intros [col [Hin Hno]].
    destruct (forallb _ expected_columns) eqn:E; [|reflexivity].
    exfalso. apply Hno. apply existsb_eqb_In.
    exact (proj1 (forallb_forall _ _) E col Hin).
Qed.

Lemma read_files_ok (files : list UploadedFile) (dfs : list DataFrame) :
  forallb has_expected_columns files = true ->
  read_files files dfs = inr (dfs ++ map file_rows files).
Proof.
  revert dfs. induction files as [|f files IH]; intros dfs H; cbn [read_files map].
  - rewrite app_nil_r. reflexivity.
  - cbn [forallb] in H. apply andb_true_iff in H. destruct H as [Hf Hrest].
    rewrite Hf, IH by exact Hrest. rewrite <- app_assoc. reflexivity.
Qed.

(** The loop stops at the first file, in upload order, that fails the check. *)
Lemma read_files_stops (files : list UploadedFile) (dfs : list DataFrame) :
  forallb has_expected_columns files = false ->
  exists before f after,
    files = before ++ f :: after /\
    forallb has_expected_columns before = true /\
    has_expected_columns f = false /\
    read_files files dfs = inl (schema_error f).
Proof.
  revert dfs. induction files as [|f files IH]; intros dfs H; [discriminate|].
  cbn [forallb] in H. cbn [read_files].
  destruct (has_expected_columns f) eqn:Hf.
  - cbn [andb] in H. destruct (IH (dfs ++ [file_rows f]) H)
      as [before [g [after [E [Hb [Hg Hr]]]]]].
    exists (f :: before), g, after. repeat split.
    + rewrite E. reflexivity.
    + cbn [forallb]. rewrite Hf, Hb. reflexivity.
    + exact Hg.
    + exact Hr.
  - exists [], f, files. repeat split. exact Hf.
Qed.

Lemma some_file_lacks_column (files : list UploadedFile) :
  (exists f, In f files /\ lacks_required_column f) <->
  forallb has_expected_columns files = false.
Proof.
  split.
  - intros [f [Hin Hl]]. apply has_expected_columns_false in Hl.
    destruct (forallb has_expected_columns files) eqn:E; [|reflexivity].
    rewrite (proj1 (forallb_forall _ _) E f Hin) in Hl. discriminate.
  - intros H. apply forallb_false_exists in H. destruct H as [f [Hin Hf]].
    exists f. split; [exact Hin | apply has_expected_columns_false; exact Hf].
Qed.

(** Which runs reach the end: at least one upload, every upload passes the
    column check, and the vendor selection is not empty. *)
Lemma run_analyse (py_eval : string -> EvalResult) (files : list UploadedFile)
    (sc : list string) (sv : list Z) (text : string) :
  files <> [] ->
  forallb has_expected_columns files = true ->
  run py_eval files sc sv text =
  analyse py_eval files (map file_rows files) sc sv text.
Proof.
  intros Hne Hok. unfold run. destruct files as [|f files]; [congruence|].
  rewrite (read_files_ok (f :: files) [] Hok). reflexivity.
Qed.

(** ** Metrics and bank charges *)

(** C1: on every metrics view each component follows its own rule on the
    same rows, and amount_to_remit is total_revenue minus the sum of
    total_refunds, ipay_commission, bank_transfer_charges, vat_bank_transfer,
    nayax_commission, bck_commission and total_vat; on the one-file input of
    Scenario A the components are 1000, 200, 5, 50, 8, 10, 5, 10 and
    amount_to_remit is 712. *)
Theorem C1_amount_to_remit :
  (forall (view : DataFrame) (dfs : list DataFrame),
     let m := calc_metrics view dfs in
     total_revenue m = col_sum Amount (filter (channel_is "C2B") view) /\
     total_refunds m = Qabs (col_sum Amount (filter (channel_is "REFUND") view)) /\
     ipay_commission m = col_sum Commission view /\
     bank_transfer_charges m = 50 * len_Q dfs /\
     vat_bank_transfer m = bank_transfer_charges m * (16 # 100) /\
     nayax_commission m = total_revenue m * (1 # 100) /\
     bck_commission m = total_revenue m * (5 # 1000) /\
     total_vat m = col_sum Vat view /\
     amount_to_remit m =
       total_revenue m -
       (total_refunds m + ipay_commission m + bank_transfer_charges m +
        vat_bank_transfer m + nayax_commission m + bck_commission m +
        total_vat m))
  /\
  (forall (d1 d2 d3 : option Timestamp) (v1 v2 v3 : option Z),
     let rows := scenario_A d1 d2 d3 v1 v2 v3 in
     let m := calc_metrics rows [rows] in
     total_revenue m == 1000 /\
     total_refunds m == 200 /\
     ipay_commission m == 5 /\
     bank_transfer_charges m == 50 /\
     vat_bank_transfer m == 8 /\
     nayax_commission m == 10 /\
     bck_commission m == 5 /\
     total_vat m == 10 /\
     amount_to_remit m == 712 /\
     Py.fmt2 (amount_to_remit m) = "712.00").
Proof.
  split.
  - intros view dfs m. repeat split.
  - intros d1 d2 d3 v1 v2 v3 rows m.
    repeat split; vm_compute; reflexivity.
Qed.

Lemma has_bankcost_true (view : DataFrame) :
  has_bankcost view = true <->
  exists r, In r view /\ Channel_Type r = Some "BANKCOST".
Proof.
  unfold has_bankcost. rewrite existsb_exists. split.
  - intros [r [Hin Hc]]. exists r. split; [exact Hin|].
    unfold channel_is in Hc. destruct (Channel_Type r); [|discriminate].
    apply String.eqb_eq in Hc. subst. reflexivity.
  - intros [r [Hin Hc]]. exists r. split; [exact Hin|].
    unfold channel_is. rewrite Hc. reflexivity.
Qed.

(** C6: on every report view the bank transfer charge is 0 when the view has
    no BANKCOST row and 50 times the number of uploaded files when it has at
    least one, however many; on the metrics view the charge is 50 times the
    number of uploaded files whatever the rows are. *)
Theorem C6_bank_transfer_charges (files : list UploadedFile)
    (dfs : list DataFrame) (filtered_view metrics_view : DataFrame) :
  read_files files [] = inr dfs ->
  ((forall r, In r filtered_view -> Channel_Type r <> Some "BANKCOST") ->
   bank_transfer_charges (calc_report filtered_view dfs) = 0) /\
  ((exists r, In r filtered_view /\ Channel_Type r = Some "BANKCOST") ->
   bank_transfer_charges (calc_report filtered_view dfs) = 50 * len_Q files) /\
  bank_transfer_charges (calc_metrics metrics_view dfs) = 50 * len_Q files.
Proof.
  intros Hload.
  assert (Hlen : len_Q dfs = len_Q files).
  { destruct (forallb has_expected_columns files) eqn:E.
    - rewrite (read_files_ok files [] E) in Hload. inversion Hload.
      unfold len_Q. cbn [app]. rewrite length_map. reflexivity.
    - destruct (read_files_stops files [] E) as [b [f [a [_ [_ [_ Hr]]]]]].
      rewrite Hr in Hload. discriminate. }
  cbn [calc_report calc_metrics bank_transfer_charges]. rewrite Hlen.
  repeat split.
  - intros Hno. destruct (has_bankcost filtered_view) eqn:Hb; [|reflexivity].
    apply has_bankcost_true in Hb. destruct Hb as [r [Hin Hc]].
    exfalso. exact (Hno r Hin Hc).
  - intros Hex. apply has_bankcost_true in Hex. rewrite Hex. reflexivity.
Qed.

Lemma C6_bank_transfer_charges_witness :
  read_files [file_A; file_gap] [] = inr [file_rows file_A; file_rows file_gap] /\
  ((forall r, In r (file_rows file_gap) -> Channel_Type r <> Some "BANKCOST") ->
   bank_transfer_charges
     (calc_report (file_rows file_gap) [file_rows file_A; file_rows file_gap]) = 0) /\
  ((exists r, In r (file_rows file_gap) /\ Channel_Type r = Some "BANKCOST") ->
   bank_transfer_charges
     (calc_report (file_rows file_gap) [file_rows file_A; file_rows file_gap])
   = 50 * len_Q [file_A; file_gap]) /\
  bank_transfer_charges
    (calc_metrics (file_rows file_A) [file_rows file_A; file_rows file_gap])
  = 50 * len_Q [file_A; file_gap].
Proof.
  split; [reflexivity|].
  apply (C6_bank_transfer_charges [file_A; file_gap]
           [file_rows file_A; file_rows file_gap]
           (file_rows file_gap) (file_rows file_A)).
  reflexivity.
Defined.

(** ** The two views *)

Lemma valid_batch_loads (files : list UploadedFile) :
  valid_batch files ->
  files <> [] /\ forallb has_expected_columns files = true.
Proof.
  intros [Hne Hall]. split; [exact Hne|].
  apply forallb_forall. intros f Hin.
  destruct (has_expected_columns f) eqn:E; [reflexivity|].
  exfalso. apply (Hall f Hin). apply has_expected_columns_false. exact E.
Qed.

Lemma filter_none {A : Type} (p : A -> bool) (l : list A) :
  (forall x, In x l -> p x = false) -> filter p l = [].
Proof.
  induction l as [|a l IH]; intros H; [reflexivity|].
  cbn [filter]. rewrite (H a (or_introl eq_refl)).
  apply IH. intros x Hx. apply H. right. exact Hx.
Qed.

Lemma filter_filter {A : Type} (p q : A -> bool) (l : list A) :
  filter q (filter p l) = filter (fun x => p x && q x) l.
Proof.
  induction l as [|a l IH]; [reflexivity|].
  cbn [filter]. destruct (p a); cbn [filter andb]; rewrite IH; reflexivity.
Qed.

(** A pass over a valid batch with a non-empty vendor selection reaches the
    end, and this is what it shows. *)
Lemma run_rendered (py_eval : string -> EvalResult) (files : list UploadedFile)
    (sc : list string) (sv : list Z) (text : string) :
  valid_batch files -> sv <> [] ->
  let dfs := map file_rows files in
  let df := List.concat dfs in
  let dt := vid_dtype df in
  let mdf := filter (vid_isin sv) df in
  let fdf := rows_passing_both df sv sc in
  let vm := fst (parse_vendor_map py_eval text) in
  run py_eval files sc sv text =
  Rendered
    (mkDashboard mdf fdf (snd (parse_vendor_map py_eval text)) vm
       (map (vendor_name vm dt) mdf) (map (vendor_name vm dt) fdf)
       (calc_metrics mdf dfs) (key_metric_tiles mdf (calc_metrics mdf dfs))
       (calc_report fdf dfs)
       (report_table files (filters_applied dt sc sv) (calc_report fdf dfs))).
Proof.
  intros Hv Hsv. destruct (valid_batch_loads files Hv) as [Hne Hok].
  cbv zeta. rewrite (run_analyse py_eval files sc sv text Hne Hok).
  unfold analyse, select_metrics_df, select_filtered_df, rows_passing_both.
  destruct sv as [|v sv]; [congruence|].
  rewrite filter_filter.
  destruct (parse_vendor_map py_eval text) as [vm w]. reflexivity.
Qed.

Lemma Qabs_0 : Qabs 0 = 0.
Proof. reflexivity. Qed.

(** Conversely, only such passes reach the end. *)
Lemma run_rendered_inv (py_eval : string -> EvalResult) (files : list UploadedFile)
    (sc : list string) (sv : list Z) (text : string) (d : Dashboard) :
  run py_eval files sc sv text = Rendered d ->
  valid_batch files /\ sv <> [].
Proof.
  intros H. unfold run in H. destruct files as [|f files]; [discriminate|].
  destruct (forallb has_expected_columns (f :: files)) eqn:E.
  - split.
    + split; [discriminate|]. intros g Hin Hl.
      apply has_expected_columns_false in Hl.
      rewrite (proj1 (forallb_forall _ _) E g Hin) in Hl. discriminate.
    + intros ->. rewrite (read_files_ok (f :: files) [] E) in H.
      cbn in H. discriminate.
  - destruct (read_files_stops (f :: files) [] E) as [b [g [a [_ [_ [_ Hr]]]]]].
    rewrite Hr in H. discriminate.
Qed.

(** C2, as stated, fails: with the BANKCOST channel deselected the report of
    Scenario A charges no bank transfer fee and totals 785, while the
    metrics-view computation on the same two rows charges 50 + 8 and gives 727. *)
Lemma C2_report_is_not_metrics_formula :
  exists d,
    run sample_eval [file_A] ["C2B"; "REFUND"] [vendlite] default_mapping_text
      = Rendered d /\
    amount_to_remit (report_metrics d) == 785 /\
    amount_to_remit
      (calc_metrics (rows_passing_both (file_rows file_A) [vendlite] ["C2B"; "REFUND"])
         [file_rows file_A]) == 727 /\
    ~ report_is_metrics_formula [file_A] [vendlite] ["C2B"; "REFUND"] d.
Proof.
  eexists. split; [vm_compute; reflexivity|].
  split; [vm_compute; reflexivity|].
  split; [vm_compute; reflexivity|].
  unfold report_is_metrics_formula. vm_compute. discriminate.
Qed.

(** C2 (amended): a report is produced for every batch that loads and every
    non-empty vendor selection; whenever one is produced, the report view is
    exactly the rows passing both filters, and its amount_to_remit is the
    metrics-view computation on those rows with the bank transfer charge and
    its VAT following the report rule: the two agree when the view has a
    BANKCOST row, and otherwise the report figure is higher by 58 per
    uploaded file. *)
Theorem C2_report_amount_to_remit (py_eval : string -> EvalResult)
    (files : list UploadedFile) (sc : list string) (sv : list Z) (text : string) :
  (valid_batch files -> sv <> [] ->
   exists d, run py_eval files sc sv text = Rendered d) /\
  (forall d,
     run py_eval files sc sv text = Rendered d ->
     filtered_df d = rows_passing_both (List.concat (map file_rows files)) sv sc /\
     amount_to_remit (report_metrics d) ==
       amount_to_remit (calc_metrics (filtered_df d) (map file_rows files))
       + (if has_bankcost (filtered_df d) then 0 else 58 * len_Q files)).
Proof.
  split.
  - intros Hv Hsv. eexists. apply (run_rendered py_eval); assumption.
  - intros d H. destruct (run_rendered_inv _ _ _ _ _ _ H) as [Hv Hsv].
    rewrite (run_rendered py_eval files sc sv text Hv Hsv) in H.
    injection H as <-. cbn [filtered_df report_metrics].
    split; [reflexivity|].
    unfold calc_report, calc_metrics. cbn [amount_to_remit].
    replace (len_Q (map file_rows files)) with (len_Q files)
      by (unfold len_Q; rewrite length_map; reflexivity).
    destruct (has_bankcost _); ring.
Qed.

Lemma file_A_valid : valid_batch [file_A].
Proof.
  split; [discriminate|].
  intros f [<-|[]] Hl. apply has_expected_columns_false in Hl. discriminate Hl.
Defined.

Lemma C2_report_amount_to_remit_witness :
  valid_batch [file_A] /\ [vendlite] <> [] /\
  exists d,
    run sample_eval [file_A] ["C2B"; "REFUND"] [vendlite] default_mapping_text
      = Rendered d /\
    filtered_df d =
      rows_passing_both (List.concat (map file_rows [file_A])) [vendlite]
        ["C2B"; "REFUND"] /\
    amount_to_remit (report_metrics d) ==
      amount_to_remit (calc_metrics (filtered_df d) (map file_rows [file_A]))
      + (if has_bankcost (filtered_df d) then 0 else 58 * len_Q [file_A]).
Proof.
  assert (Hsv : [vendlite] <> []) by discriminate.
  split; [exact file_A_valid|]. split; [exact Hsv|].
  destruct (C2_report_amount_to_remit sample_eval [file_A] ["C2B"; "REFUND"]
              [vendlite] default_mapping_text) as [Hex Hall].
  destruct (Hex file_A_valid Hsv) as [d Hd].
  exists d. split; [exact Hd|]. exact (Hall d Hd).
Defined.

(** C3: for every batch, vendor selection and mapping text, the key-metrics
    area (the rows of the metrics view, every metric with amount_to_remit
    among them, and every tile) is the same under any two channel
    selections; a pass that shows no metrics shows none under either. *)
Theorem C3_metrics_ignore_channel_filter (py_eval : string -> EvalResult)
    (files : list UploadedFile) (sv : list Z) (text : string)
    (sc1 sc2 : list string) :
  shown_metrics (run py_eval files sc1 sv text) =
  shown_metrics (run py_eval files sc2 sv text) /\
  forall d1 d2,
    run py_eval files sc1 sv text = Rendered d1 ->
    run py_eval files sc2 sv text = Rendered d2 ->
    amount_to_remit (metrics d1) = amount_to_remit (metrics d2).
Proof.
  assert (E : shown_metrics (run py_eval files sc1 sv text) =
              shown_metrics (run py_eval files sc2 sv text)).
  { unfold run. destruct files as [|f files]; [reflexivity|].
    destruct (read_files (f :: files) []) as [msg|[|df0 more]]; try reflexivity.
    unfold analyse. destruct (select_metrics_df _ sv); [reflexivity|].
    destruct (parse_vendor_map py_eval text). reflexivity. }
  split; [exact E|].
  intros d1 d2 H1 H2. rewrite H1, H2 in E. cbn in E. congruence.
Qed.

Lemma C3_metrics_ignore_channel_filter_witness :
  shown_metrics (run sample_eval [file_A] ["C2B"] [vendlite] default_mapping_text) =
  shown_metrics (run sample_eval [file_A] all_channels [vendlite] default_mapping_text) /\
  forall d1 d2,
    run sample_eval [file_A] ["C2B"] [vendlite] default_mapping_text = Rendered d1 ->
    run sample_eval [file_A] all_channels [vendlite] default_mapping_text = Rendered d2 ->
    amount_to_remit (metrics d1) = amount_to_remit (metrics d2).
Proof.
  exact (C3_metrics_ignore_channel_filter sample_eval [file_A] [vendlite]
           default_mapping_text ["C2B"] all_channels).
Defined.

(** With no vendor selected, a batch that loads always ends in the outer
    error handler. *)
Lemma empty_vendor_selection_crashes (py_eval : string -> EvalResult)
    (files : list UploadedFile) (sc : list string) (text : string) :
  valid_batch files ->
  run py_eval files sc [] text = Crashed (crash_message "True").
Proof.
  intros Hv. destruct (valid_batch_loads files Hv) as [Hne Hok].
  rewrite (run_analyse py_eval files sc [] text Hne Hok). reflexivity.
Qed.

(** With no channel selected, the report view of a completed pass is empty. *)
Lemma empty_channel_selection_empties_report (py_eval : string -> EvalResult)
    (files : list UploadedFile) (sv : list Z) (text : string) (d : Dashboard) :
  run py_eval files [] sv text = Rendered d -> filtered_df d = [].
Proof.
  intros H. destruct (run_rendered_inv _ _ _ _ _ _ H) as [Hv Hsv].
  rewrite (run_rendered py_eval files [] sv text Hv Hsv) in H.
  injection H as <-. cbn [filtered_df]. unfold rows_passing_both.
  apply filter_none. intros r _. unfold channel_isin.
  destruct (Channel_Type r); cbn; apply andb_false_r.
Qed.

(** C5, evaluated on Scenario A.  With no vendor selected the pass ends in the
    outer error handler (the index is the scalar True) instead of showing the
    metrics view that selecting every vendor present gives; with no channel
    selected the report view is empty, unlike the one that selecting every
    channel present gives, although the report's own Filters Applied line
    reads All. *)
Theorem C5_empty_selection_is_not_select_all (py_eval : string -> EvalResult) :
  let df := file_rows file_A in
  vids df = [254499%Z] /\
  channel_types df = ["C2B"; "REFUND"; "BANKCOST"] /\
  run py_eval [file_A] (channel_types df) [] EmptyString =
    Crashed "Error loading files: True. Ensure all files are valid tab-separated files with the same structure." /\
  (exists d, run py_eval [file_A] (channel_types df) (vids df) EmptyString = Rendered d /\
             metrics_df d = df /\
             filtered_df d = df) /\
  (exists d, run py_eval [file_A] [] (vids df) EmptyString = Rendered d /\
             metrics_df d = df /\
             filtered_df d = [] /\
             lookup "Filters Applied" (report d)
               = Some "Channel Types: All, Vendor IDs: 254499" /\
             lookup "Total Revenue" (report d) = Some "0.00").
Proof.
  cbv zeta. split; [reflexivity|]. split; [reflexivity|].
  split; [reflexivity|]. split.
  - eexists. split; [reflexivity|]. split; reflexivity.
  - eexists. split; [reflexivity|]. repeat split.
Qed.

(** ** The vendor mapping *)

Lemma parse_vendor_map_raises (py_eval : string -> EvalResult) (text e : string) :
  mapping_parse_fails py_eval text e ->
  parse_vendor_map py_eval text = (default_vendor_map, Some (mapping_warning e)).
Proof.
  intros [Hb He]. unfold parse_vendor_map. rewrite Hb, He. reflexivity.
Qed.

Lemma parse_vendor_map_returns (py_eval : string -> EvalResult) (text : string)
    (dict : PyDict) :
  Py.strip_is_empty text = false -> py_eval text = Returns dict ->
  parse_vendor_map py_eval text = (dict, None).
Proof.
  intros Hb He. unfold parse_vendor_map. rewrite Hb, He. reflexivity.
Qed.

(** C9: for every batch that loads and non-empty vendor selection, a mapping
    text whose evaluation raises does not abort the pass: the vendor map in
    force is the default {254499: Vendlite}, the sidebar shows the warning,
    and the metrics, tiles, report and vendor names are all produced and are
    the same for every other text that fails to parse. *)
Theorem C9_mapping_fallback (py_eval : string -> EvalResult)
    (files : list UploadedFile) (sc : list string) (sv : list Z) (text e : string) :
  valid_batch files -> sv <> [] ->
  mapping_parse_fails py_eval text e ->
  exists d,
    run py_eval files sc sv text = Rendered d /\
    vendor_map d = [(KInt 254499, "Vendlite")] /\
    sidebar_error d =
      Some ("Invalid mapping format: " ++ e ++
            ". Using default mapping (254499: Vendlite).")%string /\
    metrics d = calc_metrics (metrics_df d) (map file_rows files) /\
    report_metrics d = calc_report (filtered_df d) (map file_rows files) /\
    forall text' e',
      mapping_parse_fails py_eval text' e' ->
      exists d',
        run py_eval files sc sv text' = Rendered d' /\
        metrics d' = metrics d /\
        tiles d' = tiles d /\
        report_metrics d' = report_metrics d /\
        report d' = report d /\
        metrics_vendor_name d' = metrics_vendor_name d /\
        filtered_vendor_name d' = filtered_vendor_name d.
Proof.
  intros Hv Hsv Hf. eexists.
  split; [apply (run_rendered py_eval); assumption|].
  rewrite (parse_vendor_map_raises py_eval text e Hf).
  cbn [vendor_map sidebar_error metrics report_metrics metrics_df filtered_df
       tiles report metrics_vendor_name filtered_vendor_name fst snd].
  repeat (split; [reflexivity|]).
  intros text' e' Hf'. eexists.
  split; [apply (run_rendered py_eval); assumption|].
  rewrite (parse_vendor_map_raises py_eval text' e' Hf').
  repeat split.
Qed.

Lemma C9_mapping_fallback_witness :
  valid_batch [file_A] /\ [vendlite] <> [] /\
  mapping_parse_fails sample_eval "{254499: " "invalid syntax (<string>, line 1)" /\
  exists d,
    run sample_eval [file_A] all_channels [vendlite] "{254499: " = Rendered d /\
    vendor_map d = [(KInt 254499, "Vendlite")] /\
    sidebar_error d =
      Some ("Invalid mapping format: " ++ "invalid syntax (<string>, line 1)" ++
            ". Using default mapping (254499: Vendlite).")%string /\
    metrics d = calc_metrics (metrics_df d) (map file_rows [file_A]) /\
    report_metrics d = calc_report (filtered_df d) (map file_rows [file_A]) /\
    forall text' e',
      mapping_parse_fails sample_eval text' e' ->
      exists d',
        run sample_eval [file_A] all_channels [vendlite] text' = Rendered d' /\
        metrics d' = metrics d /\
        tiles d' = tiles d /\
        report_metrics d' = report_metrics d /\
        report d' = report d /\
        metrics_vendor_name d' = metrics_vendor_name d /\
        filtered_vendor_name d' = filtered_vendor_name d.
Proof.
  assert (Hf : mapping_parse_fails sample_eval "{254499: "
                 "invalid syntax (<string>, line 1)")
    by (split; reflexivity).
  split; [exact file_A_valid|]. split; [discriminate|]. split; [exact Hf|].
  apply (C9_mapping_fallback sample_eval [file_A] all_channels [vendlite]
           "{254499: " "invalid syntax (<string>, line 1)" file_A_valid);
    [discriminate | exact Hf].
Defined.

Lemma string_keyed_no_match (dict : PyDict) :
  string_keyed dict -> forall v, dict_get dict v = None.
Proof.
  intros Hk v. induction dict as [|[k display] dict IH]; [reflexivity|].
  cbn [dict_get]. destruct (Hk k display (or_introl eq_refl)) as [s ->].
  cbn [key_eq]. apply IH. intros k' d' Hin. apply (Hk k' d'). right. exact Hin.
Qed.

Lemma vendor_name_unmapped (dict : PyDict) (dt : dtype) (view : DataFrame) :
  (forall v, dict_get dict v = None) ->
  map (vendor_name dict dt) view = map (fun r => vid_str dt (Vid r)) view.
Proof.
  intros Hn. apply map_ext. intros r. unfold vendor_name.
  destruct (Vid r) as [v|]; [rewrite Hn|]; reflexivity.
Qed.

(** C10: when the mapping text evaluates to a dictionary whose keys are all
    strings, as the default text does, no numeric Vid equals a key, and the
    vendor name of every row of both views is the Vid written as text; for
    instance 254499.0 in a float column, where the default text configures
    Vendlite. *)
Theorem C10_string_keys_never_match :
  (forall (py_eval : string -> EvalResult) (files : list UploadedFile)
          (sc : list string) (sv : list Z) (text : string) (dict : PyDict),
     valid_batch files -> sv <> [] ->
     Py.strip_is_empty text = false -> py_eval text = Returns dict ->
     string_keyed dict ->
     exists d,
       run py_eval files sc sv text = Rendered d /\
       vendor_map d = dict /\
       (forall v, dict_get (vendor_map d) v = None) /\
       metrics_vendor_name d =
         map (fun r => vid_str (vid_dtype (List.concat (map file_rows files))) (Vid r))
           (metrics_df d) /\
       filtered_vendor_name d =
         map (fun r => vid_str (vid_dtype (List.concat (map file_rows files))) (Vid r))
           (filtered_df d))
  /\
  (sample_eval default_mapping_text = Returns [(KStr "254499", "Vendlite")] /\
   exists d,
     run sample_eval [file_gap] all_channels [vendlite] default_mapping_text
       = Rendered d /\
     map Vid (metrics_df d) = [Some 254499%Z] /\
     metrics_vendor_name d = ["254499.0"] /\
     filtered_vendor_name d = ["254499.0"]).
Proof.
  split.
  - intros py_eval files sc sv text dict Hv Hsv Hb He Hk. eexists.
    split; [apply (run_rendered py_eval); assumption|].
    rewrite (parse_vendor_map_returns py_eval text dict Hb He).
    cbn [vendor_map metrics_vendor_name filtered_vendor_name metrics_df
         filtered_df fst snd].
    pose proof (string_keyed_no_match dict Hk) as Hn.
    split; [reflexivity|]. split; [exact Hn|].
    split; apply vendor_name_unmapped; exact Hn.
  - split; [reflexivity|]. eexists. split; [vm_compute; reflexivity|].
    repeat split.
Qed.

Lemma file_gap_valid : valid_batch [file_gap].
Proof.
  split; [discriminate|].
  intros f [<-|[]] Hl. apply has_expected_columns_false in Hl. discriminate Hl.
Defined.

Lemma default_dict_string_keyed : string_keyed [(KStr "254499", "Vendlite")].
Proof.
  intros k display [H|[]]. inversion H. exists "254499". reflexivity.
Defined.

Lemma C10_string_keys_never_match_witness :
  exists d,
    run sample_eval [file_gap] all_channels [vendlite] default_mapping_text
      = Rendered d /\
    vendor_map d = [(KStr "254499", "Vendlite")] /\
    (forall v, dict_get (vendor_map d) v = None) /\
    metrics_vendor_name d =
      map (fun r => vid_str (vid_dtype (List.concat (map file_rows [file_gap]))) (Vid r))
        (metrics_df d) /\
    filtered_vendor_name d =
      map (fun r => vid_str (vid_dtype (List.concat (map file_rows [file_gap]))) (Vid r))
        (filtered_df d).
Proof.
  apply (proj1 C10_string_keys_never_match sample_eval [file_gap] all_channels
           [vendlite] default_mapping_text [(KStr "254499", "Vendlite")]).
  - exact file_gap_valid.
  - discriminate.
  - reflexivity.
  - reflexivity.
  - exact default_dict_string_keyed.
Defined.

(** ** Daily averages *)

Lemma Qsum_cons (x : Q) (l : list Q) : Qsum (x :: l) = x + Qsum l.
Proof. reflexivity. Qed.

Lemma group_add_sum (d : Z) (x : Q) (g : list (Z * Q)) :
  Qsum (map snd (group_add d x g)) == Qsum (map snd g) + x.
Proof.
  induction g as [|[d' s] g IH]; cbn [group_add].
  - cbn. ring.
  - destruct (d <? d')%Z.
    + cbn [map snd]. rewrite !Qsum_cons. ring.
    + destruct (d =? d')%Z; cbn [map snd]; rewrite !Qsum_cons.
      * ring.
      * rewrite IH. ring.
Qed.

Lemma group_add_keys (d : Z) (x : Q) (g : list (Z * Q)) (k : Z) :
  In k (map fst (group_add d x g)) <-> k = d \/ In k (map fst g).
Proof.
  induction g as [|[d' s] g IH]; cbn [group_add].
  - cbn. intuition.
  - destruct (d <? d')%Z.
    + cbn [map fst In]. intuition.
    + destruct (Z.eqb_spec d d') as [->|Hne]; cbn [map fst In].
      * intuition.
      * rewrite IH. intuition.
Qed.

Lemma group_add_sorted (d : Z) (x : Q) (g : list (Z * Q)) :
  StronglySorted Z.lt (map fst g) ->
  StronglySorted Z.lt (map fst (group_add d x g)).
Proof.
  induction g as [|[d' s] g IH]; cbn [group_add]; intros Hs.
  - cbn. constructor; constructor.
  - cbn [map fst] in Hs. inversion Hs as [|a l Hl Hall]; subst.
    destruct (Z.ltb_spec d d') as [Hlt|Hge].
    + cbn [map fst]. constructor; [exact Hs|].
      constructor; [exact Hlt|].
      eapply Forall_impl; [|exact Hall]. intros k Hk. cbn in Hk. lia.
    + destruct (Z.eqb_spec d d') as [->|Hne]; cbn [map fst].
      * exact Hs.
      * constructor; [apply IH; exact Hl|].
        apply Forall_forall. intros k Hk. apply group_add_keys in Hk.
        destruct Hk as [->|Hk]; [lia|].
        exact (proj1 (Forall_forall _ _) Hall k Hk).
Qed.

Lemma sorted_NoDup (l : list Z) : StronglySorted Z.lt l -> NoDup l.
Proof.
  induction 1 as [|a l Hs IH Hall]; constructor; [|exact IH].
  intros Hin. pose proof (proj1 (Forall_forall _ _) Hall a Hin). lia.
Qed.

Lemma group_add_value (d' : Z) (x : Q) (g : list (Z * Q)) (d : Z) :
  group_value d (group_add d' x g) ==
  group_value d g + (if (d' =? d)%Z then x else 0).
Proof.
  unfold group_value. induction g as [|[k s] g IH]; cbn [group_add].
  - cbn [filter fst map snd]. destruct (d' =? d)%Z; cbn; ring.
  - destruct (d' <? k)%Z.
    + cbn [filter fst]. destruct (d' =? d)%Z, (k =? d)%Z;
        cbn [map snd]; rewrite ?Qsum_cons; ring.
    + destruct (Z.eqb_spec d' k) as [->|Hne].
      * cbn [filter fst]. destruct (k =? d)%Z;
          cbn [map snd]; rewrite ?Qsum_cons; ring.
      * cbn [filter fst]. destruct (k =? d)%Z;
          cbn [map snd]; rewrite ?Qsum_cons, IH; ring.
Qed.

Lemma group_value_In (g : list (Z * Q)) (d : Z) (s : Q) :
  NoDup (map fst g) -> In (d, s) g -> group_value d g == s.
Proof.
  unfold group_value. induction g as [|[k t] g IH]; intros Hnd Hin; [contradiction|].
  cbn [map fst] in Hnd. inversion Hnd as [|a l Hnot Hnd']; subst.
  cbn [filter fst]. destruct Hin as [E|Hin].
  - inversion E; subst. rewrite Z.eqb_refl. cbn [map snd]. rewrite Qsum_cons.
    rewrite (filter_none (fun g0 => (fst g0 =? d)%Z) g).
    + cbn. ring.
    + intros [k' t'] Hk. cbn [fst]. destruct (Z.eqb_spec k' d) as [->|]; [|reflexivity].
      exfalso. apply Hnot. apply (in_map fst) in Hk. exact Hk.
  - destruct (Z.eqb_spec k d) as [->|Hne].
    + exfalso. apply Hnot. apply (in_map fst) in Hin. exact Hin.
    + apply IH; assumption.
Qed.

Section GroupBy.

Variable col : Row -> option Q.

Let step (groups : list (Z * Q)) (r : Row) : list (Z * Q) :=
  match Date_only r with
  | Some d => group_add d (nan_to_zero (col r)) groups
  | None => groups
  end.

Let has_date (r : Row) : bool := is_some (Date_only r).

Lemma groupby_fold_sum (view : DataFrame) (acc : list (Z * Q)) :
  Qsum (map snd (fold_left step view acc)) ==
  Qsum (map snd acc) + col_sum col (filter has_date view).
Proof.
  revert acc. induction view as [|r view IH]; intros acc; cbn [fold_left filter].
  - cbn. ring.
  - rewrite IH. unfold step, has_date.
    destruct (Date_only r) as [d|]; cbn [is_some].
    + rewrite group_add_sum. cbn [col_sum].
      destruct (col r); cbn [nan_to_zero]; ring.
    + reflexivity.
Qed.

Lemma groupby_fold_keys (view : DataFrame) (acc : list (Z * Q)) (k : Z) :
  In k (map fst (fold_left step view acc)) <->
  In k (map fst acc) \/ In k (dated view).
Proof.
  revert acc. induction view as [|r view IH]; intros acc; cbn [fold_left].
  - cbn. intuition.
  - rewrite IH. unfold step. unfold dated. cbn [flat_map].
    rewrite in_app_iff. fold (dated view).
    destruct (Date_only r) as [d|].
    + rewrite group_add_keys. cbn [In]. intuition.
    + cbn [In]. intuition.
Qed.

Lemma groupby_fold_sorted (view : DataFrame) (acc : list (Z * Q)) :
  StronglySorted Z.lt (map fst acc) ->
  StronglySorted Z.lt (map fst (fold_left step view acc)).
Proof.
  revert acc. induction view as [|r view IH]; intros acc Hs; cbn [fold_left].
  - exact Hs.
  - apply IH. unfold step. destruct (Date_only r); [|exact Hs].
    apply group_add_sorted. exact Hs.
Qed.

(** One group per distinct day. *)
Lemma groupby_length (view : DataFrame) :
  List.length (groupby_date_sum col view) = List.length (distinct_days view).
Proof.
  rewrite <- (length_map fst). apply Permutation_length.
  apply NoDup_Permutation.
  - apply sorted_NoDup. apply (groupby_fold_sorted view []). constructor.
  - apply NoDup_nodup.
  - intros k. unfold groupby_date_sum. fold step.
    rewrite (groupby_fold_keys view [] k). unfold distinct_days.
    rewrite nodup_In. cbn. intuition.
Qed.

(** The group sums add up to the column total over the dated rows. *)
Lemma groupby_total (view : DataFrame) :
  Qsum (map snd (groupby_date_sum col view)) == col_sum col (filter has_date view).
Proof.
  unfold groupby_date_sum. fold step. rewrite (groupby_fold_sum view []).
  cbn. ring.
Qed.

Lemma groupby_fold_value (view : DataFrame) (acc : list (Z * Q)) (d : Z) :
  group_value d (fold_left step view acc) ==
  group_value d acc + col_sum col (filter (on_day d) view).
Proof.
  revert acc. induction view as [|r view IH]; intros acc; cbn [fold_left filter].
  - cbn. ring.
  - rewrite IH. unfold step, on_day, date_eqb.
    destruct (Date_only r) as [d'|].
    + rewrite group_add_value. destruct (d' =? d)%Z; cbn [col_sum].
      * destruct (col r); cbn [nan_to_zero]; ring.
      * ring.
    + ring.
Qed.

(** Each group carries the column total of the rows of its day. *)
Lemma groupby_groups (view : DataFrame) (d : Z) (s : Q) :
  In (d, s) (groupby_date_sum col view) ->
  s == col_sum col (filter (on_day d) view).
Proof.
  intros Hin.
  assert (Hnd : NoDup (map fst (groupby_date_sum col view))).
  { apply sorted_NoDup. apply (groupby_fold_sorted view []). constructor. }
  rewrite <- (group_value_In _ d s Hnd Hin).
  unfold groupby_date_sum. fold step. rewrite (groupby_fold_value view [] d).
  cbn. ring.
Qed.

End GroupBy.

Lemma col_sum_filter_split (col : Row -> option Q) (p q : Row -> bool)
    (view : DataFrame) :
  (forall r, In r view -> p r && q r = false) ->
  col_sum col (filter (fun r => p r || q r) view) ==
  col_sum col (filter p view) + col_sum col (filter q view).
Proof.
  induction view as [|r view IH]; intros Hd.
  - cbn. ring.
  - assert (IH' := IH (fun r' Hin => Hd r' (or_intror Hin))).
    pose proof (Hd r (or_introl eq_refl)) as Hr.
    cbn [filter]. destruct (p r), (q r); try discriminate Hr;
      cbn [orb col_sum]; destruct (col r); rewrite IH'; ring.
Qed.

(** Day totals over distinct days add up to the total of the rows that fall
    on those days. *)
Lemma day_totals_sum (view : DataFrame) (days : list Z) :
  NoDup days ->
  Qsum (map (day_total view) days) == col_sum Amount (filter (day_in days) view).
Proof.
  induction 1 as [|d0 days Hnot Hnd IH].
  - rewrite (filter_none (day_in []) view); [reflexivity|].
    intros r _. unfold day_in. destruct (Date_only r); reflexivity.
  - cbn [map]. rewrite Qsum_cons, IH. unfold day_total.
    rewrite <- col_sum_filter_split.
    + rewrite (filter_ext (day_in (d0 :: days))
                 (fun r => on_day d0 r || day_in days r)); [reflexivity|].
      intros r. unfold day_in, on_day, date_eqb.
      destruct (Date_only r); reflexivity.
    + intros r _. unfold on_day, day_in, date_eqb.
      destruct (Date_only r) as [d|]; [|reflexivity].
      destruct (Z.eqb_spec d d0) as [->|Hne]; [|reflexivity].
      destruct (existsb (Z.eqb d0) days) eqn:E; [|reflexivity].
      exfalso. apply Hnot. apply existsb_exists in E.
      destruct E as [k [Hin Hk]]. apply Z.eqb_eq in Hk. subst. exact Hin.
Qed.

Lemma In_dated (view : DataFrame) (r : Row) (d : Z) :
  In r view -> Date_only r = Some d -> In d (dated view).
Proof.
  intros Hin Hd. unfold dated. apply in_flat_map. exists r.
  split; [exact Hin|]. rewrite Hd. left. reflexivity.
Qed.

Lemma day_totals_all (view : DataFrame) :
  Qsum (map (day_total view) (distinct_days view)) ==
  col_sum Amount (filter (fun r => is_some (Date_only r)) view).
Proof.
  rewrite day_totals_sum by apply NoDup_nodup.
  rewrite (filter_ext_in (day_in (distinct_days view))
             (fun r => is_some (Date_only r))); [reflexivity|].
  intros r Hin. unfold day_in. destruct (Date_only r) as [d|] eqn:Hd; [|reflexivity].
  cbn [is_some]. apply existsb_exists. exists d. split; [|apply Z.eqb_refl].
  unfold distinct_days. apply nodup_In. exact (In_dated view r d Hin Hd).
Qed.

(** The mean taken by the script over the groups is the mean of the day
    totals over the distinct days. *)
Lemma groupby_mean (view : DataFrame) :
  (exists r, In r view /\ Date_only r <> None) ->
  exists q,
    mean (map snd (groupby_date_sum Amount view)) = Py.Num q /\
    q == mean_day_total view.
Proof.
  intros [r [Hin Hd]].
  pose proof (groupby_length Amount view) as Hlen.
  pose proof (groupby_total Amount view) as Htot.
  assert (Hpos : distinct_days view <> []).
  { destruct (Date_only r) as [d|] eqn:E; [|congruence].
    intros Hnil. pose proof (In_dated view r d Hin E) as Hi.
    apply (nodup_In Z.eq_dec) in Hi. fold (distinct_days view) in Hi.
    rewrite Hnil in Hi. contradiction. }
  rewrite <- (length_map snd) in Hlen.
  unfold mean. destruct (map snd (groupby_date_sum Amount view)) as [|x l] eqn:E.
  - destruct (distinct_days view); [congruence | discriminate Hlen].
  - eexists. split; [reflexivity|].
    unfold mean_day_total. rewrite Htot, day_totals_all.
    unfold len_Q. rewrite Hlen. reflexivity.
Qed.

(** C4, as stated, fails: a sale of 1000 and a refund of 200 on one day show
    an average of 800.00, not the C2B mean 1000.00; a view holding only a
    dated refund shows -200.00, not zero; a view holding only an undated sale
    shows nan, not zero. *)
Lemma C4_avg_daily_is_not_c2b_mean :
  ~ avg_tile_is_c2b_mean same_day_view /\
  avg_daily_tile same_day_view = "800.00" /\
  Py.fmt2 (avg_daily_revenue_c2b same_day_view) = "1000.00" /\
  avg_daily_tile refund_only_view = "-200.00" /\
  Py.fmt2 (avg_daily_revenue_c2b refund_only_view) = "0.00" /\
  avg_daily_tile undated_view = "nan" /\
  Py.fmt2 (avg_daily_revenue_c2b undated_view) = "0.00".
Proof.
  split; [|repeat split; vm_compute; reflexivity].
  unfold avg_tile_is_c2b_mean. vm_compute. discriminate.
Qed.

(** C4 (amended): on every metrics view with at least one dated row the
    guard of line 185 passes and the average daily revenue, as a value, is the
    arithmetic mean, over the distinct non-null dates, of the per-date sums of
    Amount taken over all rows of the view whatever their channel type; on the
    empty view the tile reads 0.00. *)
Theorem C4_avg_daily_revenue :
  (forall view : DataFrame,
     (exists r, In r view /\ Date_only r <> None) ->
     (0 <? List.length (unique (map Date_only view)))%nat = true /\
     exists q, avg_daily view = Py.Num q /\ q == mean_day_total view) /\
  avg_daily_tile [] = "0.00".
Proof.
  split; [|reflexivity].
  intros view Hex. split.
  - destruct view as [|r0 view]; [destruct Hex as [r [[] _]]|]. reflexivity.
  - exact (groupby_mean view Hex).
Qed.

Lemma C4_avg_daily_revenue_witness :
  (exists r, In r (file_rows file_two_vendors) /\ Date_only r <> None) /\
  List.length (distinct_days (file_rows file_two_vendors)) = 3%nat /\
  (0 <? List.length (unique (map Date_only (file_rows file_two_vendors))))%nat = true /\
  exists q,
    avg_daily (file_rows file_two_vendors) = Py.Num q /\
    q == mean_day_total (file_rows file_two_vendors).
Proof.
  assert (H : exists r, In r (file_rows file_two_vendors) /\ Date_only r <> None).
  { eexists. split; [left; reflexivity | discriminate]. }
  split; [exact H|]. split; [reflexivity|].
  exact (proj1 C4_avg_daily_revenue (file_rows file_two_vendors) H).
Defined.

(** ** Scenario A on IEEE doubles *)

(** The rounded products 50 * 0.16, 1000 * 0.01 and 1000 * 0.005 are exactly
    8, 10 and 5, and the remittance of Scenario A is exactly 712, so the
    figures above are those of the floating-point run as well. *)
Lemma scenario_A_binary64 :
  (50 * 1 * 0.16 = 8)%float /\
  (1000 * 0.01 = 10)%float /\
  (1000 * 0.005 = 5)%float /\
  amount_to_remit_binary64 1000%float (-200)%float 5%float 10%float 1%float
    = 712%float.
Proof. repeat split; vm_compute; reflexivity. Qed.

(** * Further properties of the script *)

(** ** Loader and exits *)

Lemma upload_ok_false (u : Upload) :
  upload_ok u = false <-> (exists e, read_csv u = inl e) \/ upload_lacks_column u.
Proof.
  unfold upload_ok, upload_lacks_column. destruct (read_csv u) as [e|[cols rows]].
  - split; [intros _; left; exists e; reflexivity | reflexivity].
  - rewrite has_expected_columns_false. split.
    + intros H. right. exists cols, rows. split; [reflexivity | exact H].
    + intros [[e He]|[c [r [E H]]]]; [discriminate He|].
      inversion E; subst. exact H.
Qed.

Lemma upload_ok_true (u : Upload) :
  upload_ok u = true ->
  exists columns rows,
    read_csv u = inr (columns, rows) /\
    has_expected_columns (mkFile (upload_name u) columns rows) = true /\
    as_file u = mkFile (upload_name u) columns rows.
Proof.
  unfold upload_ok, as_file. destruct (read_csv u) as [e|[cols rows]];
    [discriminate|].
  intros H. exists cols, rows. repeat split. exact H.
Qed.

Lemma schema_error_names_file (u : Upload) : schema_error (as_file u) = names_file u.
Proof.
  unfold schema_error, names_file, as_file.
  destruct (read_csv u) as [e|[cols rows]]; reflexivity.
Qed.

Lemma load_uploads_ok (uploads : list Upload) (dfs : list DataFrame) :
  forallb upload_ok uploads = true ->
  load_uploads uploads dfs = Loaded (dfs ++ map upload_rows uploads).
Proof.
  revert dfs. induction uploads as [|u uploads IH]; intros dfs H; cbn [load_uploads map].
  - rewrite app_nil_r. reflexivity.
  - cbn [forallb] in H. apply andb_true_iff in H. destruct H as [Hu Hrest].
    destruct (upload_ok_true u Hu) as [cols [rows [E [Hc Ef]]]].
    unfold upload_rows at 1. rewrite Ef, E. cbv zeta. rewrite Hc.
    rewrite (IH _ Hrest). cbn [file_rows]. rewrite <- app_assoc. reflexivity.
Qed.

Lemma load_uploads_raises (before : list Upload) (u : Upload) (after : list Upload)
    (e : string) (dfs : list DataFrame) :
  forallb upload_ok before = true -> read_csv u = inl e ->
  load_uploads (before ++ u :: after) dfs = Raised e.
Proof.
  revert dfs. induction before as [|g before IH]; intros dfs Hb He; cbn [app load_uploads].
  - rewrite He. reflexivity.
  - cbn [forallb] in Hb. apply andb_true_iff in Hb. destruct Hb as [Hg Hb].
    destruct (upload_ok_true g Hg) as [cols [rows [E [Hc _]]]].
    rewrite E. cbv zeta. rewrite Hc. apply IH; assumption.
Qed.

Lemma load_uploads_refuses (before : list Upload) (u : Upload) (after : list Upload)
    (dfs : list DataFrame) :
  forallb upload_ok before = true -> upload_lacks_column u ->
  load_uploads (before ++ u :: after) dfs = Refused (names_file u).
Proof.
  revert dfs. induction before as [|g before IH]; intros dfs Hb Hl; cbn [app load_uploads].
  - rewrite <- schema_error_names_file. unfold as_file.
    destruct Hl as [cols [rows [E Hl]]]. rewrite E. cbv zeta.
    rewrite (proj2 (has_expected_columns_false _) Hl). reflexivity.
  - cbn [forallb] in Hb. apply andb_true_iff in Hb. destruct Hb as [Hg Hb].
    destruct (upload_ok_true g Hg) as [cols [rows [E [Hc _]]]].
    rewrite E. cbv zeta. rewrite Hc. apply IH; assumption.
Qed.

Lemma first_failure (uploads : list Upload) :
  forallb upload_ok uploads = false ->
  exists before u after,
    uploads = before ++ u :: after /\
    forallb upload_ok before = true /\ upload_ok u = false.
Proof.
  induction uploads as [|g uploads IH]; [discriminate|].
  cbn [forallb]. destruct (upload_ok g) eqn:Hg; cbn [andb]; intros H.
  - destruct (IH H) as [before [u [after [E [Hb Hu]]]]].
    exists (g :: before), u, after. split; [rewrite E; reflexivity|].
    cbn [forallb]. rewrite Hg, Hb. split; [reflexivity | exact Hu].
  - exists [], g, uploads. repeat split. exact Hg.
Qed.

Lemma run_uploads_raises (py_eval : string -> EvalResult) (before : list Upload)
    (u : Upload) (after : list Upload) (e : string)
    (sc : list string) (sv : list Z) (text : string) :
  forallb upload_ok before = true -> read_csv u = inl e ->
  run_uploads py_eval (before ++ u :: after) sc sv text = Crashed (crash_message e).
Proof.
  intros Hb He. unfold run_uploads.
  rewrite (load_uploads_raises before u after e [] Hb He).
  destruct before; reflexivity.
Qed.

Lemma run_uploads_refuses (py_eval : string -> EvalResult) (before : list Upload)
    (u : Upload) (after : list Upload)
    (sc : list string) (sv : list Z) (text : string) :
  forallb upload_ok before = true -> upload_lacks_column u ->
  run_uploads py_eval (before ++ u :: after) sc sv text = Stopped (names_file u).
Proof.
  intros Hb Hl. unfold run_uploads.
  rewrite (load_uploads_refuses before u after [] Hb Hl).
  destruct before; reflexivity.
Qed.

(** When every upload is read and passes the check, the pass is the one on
    the frames. *)
Lemma run_uploads_run (py_eval : string -> EvalResult) (uploads : list Upload)
    (sc : list string) (sv : list Z) (text : string) :
  forallb upload_ok uploads = true ->
  run_uploads py_eval uploads sc sv text =
  run py_eval (map as_file uploads) sc sv text.
Proof.
  intros Hok. unfold run_uploads, run.
  destruct uploads as [|u uploads]; [reflexivity|].
  rewrite (load_uploads_ok (u :: uploads) [] Hok).
  assert (Hf : forallb has_expected_columns (map as_file (u :: uploads)) = true).
  { apply forallb_forall. intros f Hin. apply in_map_iff in Hin.
    destruct Hin as [g [<- Hg]].
    destruct (upload_ok_true g (proj1 (forallb_forall _ _) Hok g Hg))
      as [cols [rows [_ [Hc Ef]]]].
    rewrite Ef. exact Hc. }
  cbn [map] in *. rewrite (read_files_ok _ [] Hf). cbn [app map].
  rewrite map_map. reflexivity.
Qed.

Lemma uploads_valid (uploads : list Upload) :
  uploads <> [] -> forallb upload_ok uploads = true ->
  valid_batch (map as_file uploads).
Proof.
  intros Hne Hok. split.
  - destruct uploads; [congruence | discriminate].
  - intros f Hin Hl. apply in_map_iff in Hin. destruct Hin as [g [<- Hg]].
    destruct (upload_ok_true g (proj1 (forallb_forall _ _) Hok g Hg))
      as [cols [rows [_ [Hc Ef]]]].
    apply has_expected_columns_false in Hl. rewrite Ef in Hl. congruence.
Qed.

(** The pass from the uploads, case by case. *)
Lemma run_uploads_cases (py_eval : string -> EvalResult) (uploads : list Upload)
    (sc : list string) (sv : list Z) (text : string) :
  let o := run_uploads py_eval uploads sc sv text in
  (uploads = [] /\ o = NoUpload) \/
  (exists before u after e,
     uploads = before ++ u :: after /\ forallb upload_ok before = true /\
     read_csv u = inl e /\ o = Crashed (crash_message e)) \/
  (exists before u after,
     uploads = before ++ u :: after /\ forallb upload_ok before = true /\
     upload_lacks_column u /\ o = Stopped (names_file u)) \/
  (uploads <> [] /\ forallb upload_ok uploads = true /\ sv = [] /\
   o = Crashed (crash_message "True")) \/
  (uploads <> [] /\ forallb upload_ok uploads = true /\ sv <> [] /\
   exists d, o = Rendered d).
Proof.
  cbv zeta. destruct uploads as [|u0 us]; [left; split; reflexivity|].
  right. destruct (forallb upload_ok (u0 :: us)) eqn:E.
  - right. right.
    assert (Hne : u0 :: us <> []) by discriminate.
    pose proof (uploads_valid _ Hne E) as Hv.
    rewrite (run_uploads_run py_eval _ sc sv text E).
    destruct sv as [|v sv].
    + left. repeat split; try assumption.
      apply (empty_vendor_selection_crashes py_eval _ sc text Hv).
    + right. assert (Hsv : v :: sv <> []) by discriminate.
      repeat split; try assumption. eexists.
      apply (run_rendered py_eval _ sc (v :: sv) text Hv Hsv).
  - destruct (first_failure _ E) as [before [u [after [Eq [Hb Hu]]]]].
    rewrite Eq. apply upload_ok_false in Hu. destruct Hu as [[e He]|Hl].
    + left. exists before, u, after, e. repeat split; try assumption.
      apply run_uploads_raises; assumption.
    + right. left. exists before, u, after. repeat split; try assumption.
      apply run_uploads_refuses; assumption.
Qed.

(** C8, as stated, fails: an upload that lacks the Vat column is not named
    when an upload before it cannot be read (the outer handler shows the text
    of the exception, and names no file), nor is an upload that lacks a column
    named when an upload before it lacks one too. *)
Lemma C8_error_may_not_name_the_file :
  upload_lacks_column (upload_of file_no_vat) /\
  run_uploads sample_eval [upload_empty; upload_of file_no_vat] all_channels
    [vendlite] default_mapping_text
  = Crashed "Error loading files: No columns to parse from file. Ensure all files are valid tab-separated files with the same structure." /\
  ~ loading_names sample_eval [upload_empty; upload_of file_no_vat]
      (upload_of file_no_vat) /\
  upload_lacks_column (upload_of file_no_amount) /\
  run_uploads sample_eval [upload_of file_no_vat; upload_of file_no_amount]
    all_channels [vendlite] default_mapping_text
  = Stopped "File broken.csv does not have the expected columns: Date, Amount, Commission, Vat, Vid, Channel Type" /\
  ~ loading_names sample_eval [upload_of file_no_vat; upload_of file_no_amount]
      (upload_of file_no_amount).
Proof.
  assert (L1 : upload_lacks_column (upload_of file_no_vat)).
  { eexists. eexists. split; [reflexivity|].
    apply has_expected_columns_false. reflexivity. }
  assert (L2 : upload_lacks_column (upload_of file_no_amount)).
  { eexists. eexists. split; [reflexivity|].
    apply has_expected_columns_false. reflexivity. }
  split; [exact L1|]. split; [reflexivity|]. split.
  { intros H. specialize (H all_channels [vendlite] default_mapping_text).
    vm_compute in H. discriminate H. }
  split; [exact L2|]. split; [reflexivity|].
  intros H. specialize (H all_channels [vendlite] default_mapping_text).
  vm_compute in H. discriminate H.
Qed.

(** C8 (amended): the first upload, in upload order, that cannot be read or
    lacks a required column decides.  When it lacks a column, loading stops
    with the error naming it and the expected columns; when it cannot be
    read, the pass ends in the outer handler with the text of the exception,
    which names no file.  Whenever some upload
    lacks a required column, no frame list is produced and no metric is shown:
    the pass stops with that error for the first failing upload, or, when
    that upload could not be read, ends in the outer handler with the text of
    the exception. *)
Theorem C8_schema_mismatch_halts (py_eval : string -> EvalResult)
    (sc : list string) (sv : list Z) (text : string) :
  (forall before u after,
     forallb upload_ok before = true -> upload_lacks_column u ->
     load_uploads (before ++ u :: after) [] = Refused (names_file u) /\
     run_uploads py_eval (before ++ u :: after) sc sv text = Stopped (names_file u)) /\
  (forall before u after e,
     forallb upload_ok before = true -> read_csv u = inl e ->
     load_uploads (before ++ u :: after) [] = Raised e /\
     run_uploads py_eval (before ++ u :: after) sc sv text = Crashed (crash_message e)) /\
  (forall uploads,
     (exists u, In u uploads /\ upload_lacks_column u) ->
     (forall dfs, load_uploads uploads [] <> Loaded dfs) /\
     shown_metrics (run_uploads py_eval uploads sc sv text) = None /\
     exists before u after,
       uploads = before ++ u :: after /\
       forallb upload_ok before = true /\
       ((upload_lacks_column u /\
         run_uploads py_eval uploads sc sv text = Stopped (names_file u)) \/
        (exists e, read_csv u = inl e /\
         run_uploads py_eval uploads sc sv text = Crashed (crash_message e)))).
Proof.
  split; [|split].
  - intros before u after Hb Hl. split.
    + apply load_uploads_refuses; assumption.
    + apply run_uploads_refuses; assumption.
  - intros before u after e Hb He. split.
    + apply load_uploads_raises; assumption.
    + apply run_uploads_raises; assumption.
  - intros uploads [u0 [Hin Hl0]].
    assert (E : forallb upload_ok uploads = false).
    { destruct (forallb upload_ok uploads) eqn:E; [|reflexivity].
      pose proof (proj1 (forallb_forall _ _) E u0 Hin) as Hok.
      rewrite (proj2 (upload_ok_false u0) (or_intror Hl0)) in Hok. discriminate. }
    destruct (first_failure _ E) as [before [u [after [Eq [Hb Hu]]]]].
    apply upload_ok_false in Hu. subst uploads. destruct Hu as [[e He]|Hl].
    + rewrite (run_uploads_raises py_eval before u after e sc sv text Hb He).
      split; [|split; [reflexivity|]].
      * intros dfs. rewrite (load_uploads_raises before u after e [] Hb He).
        discriminate.
      * exists before, u, after. split; [reflexivity|]. split; [exact Hb|].
        right. exists e. split; [exact He | reflexivity].
    + rewrite (run_uploads_refuses py_eval before u after sc sv text Hb Hl).
      split; [|split; [reflexivity|]].
      * intros dfs. rewrite (load_uploads_refuses before u after [] Hb Hl).
        discriminate.
      * exists before, u, after. split; [reflexivity|]. split; [exact Hb|].
        left. split; [exact Hl | reflexivity].
Qed.

Lemma upload_no_vat_lacks : upload_lacks_column (upload_of file_no_vat).
Proof.
  exists (file_columns file_no_vat), (file_rows file_no_vat).
  split; [reflexivity|]. exists "Vat". split.
  - right. right. right. left. reflexivity.
  - intros H. cbn in H. repeat (destruct H as [H|H]; [discriminate H|]). exact H.
Defined.

Lemma C8_schema_mismatch_halts_witness :
  forallb upload_ok [upload_of file_A] = true /\
  upload_lacks_column (upload_of file_no_vat) /\
  load_uploads ([upload_of file_A] ++ upload_of file_no_vat :: [upload_empty]) []
    = Refused (names_file (upload_of file_no_vat)) /\
  run_uploads sample_eval
    ([upload_of file_A] ++ upload_of file_no_vat :: [upload_empty])
    all_channels [vendlite] default_mapping_text
    = Stopped (names_file (upload_of file_no_vat)).
Proof.
  split; [reflexivity|]. split; [exact upload_no_vat_lacks|].
  exact (proj1 (C8_schema_mismatch_halts sample_eval all_channels [vendlite]
                  default_mapping_text)
           [upload_of file_A] (upload_of file_no_vat) [upload_empty]
           eq_refl upload_no_vat_lacks).
Defined.

(** X1: the loader accepts a batch exactly when [read_csv] reads every
    upload and none of them lacks a required column, and then [dfs] holds
    one frame per upload, in upload order. *)
Theorem load_uploads_accepts_iff (uploads : list Upload) (dfs : list DataFrame) :
  load_uploads uploads [] = Loaded dfs <->
  (forall u, In u uploads ->
     exists columns rows,
       read_csv u = inr (columns, rows) /\
       ~ lacks_required_column (mkFile (upload_name u) columns rows)) /\
  dfs = map upload_rows uploads.
Proof.
  split.
  - intros H. destruct (forallb upload_ok uploads) eqn:E.
    + rewrite (load_uploads_ok uploads [] E) in H. inversion H. split; [|reflexivity].
      intros u Hin.
      destruct (upload_ok_true u (proj1 (forallb_forall _ _) E u Hin))
        as [cols [rows [Er [Hc _]]]].
      exists cols, rows. split; [exact Er|].
      intros Hl. apply has_expected_columns_false in Hl. congruence.
    + destruct (first_failure _ E) as [before [u [after [Eq [Hb Hu]]]]].
      subst uploads. apply upload_ok_false in Hu. destruct Hu as [[e He]|Hl].
      * rewrite (load_uploads_raises before u after e [] Hb He) in H. discriminate.
      * rewrite (load_uploads_refuses before u after [] Hb Hl) in H. discriminate.
  - intros [Hall ->]. apply (load_uploads_ok uploads []).
    apply forallb_forall. intros u Hin.
    destruct (Hall u Hin) as [cols [rows [Er Hno]]].
    unfold upload_ok. rewrite Er.
    destruct (has_expected_columns (mkFile (upload_name u) cols rows)) eqn:Hc;
      [reflexivity|].
    exfalso. apply Hno. apply has_expected_columns_false. exact Hc.
Qed.

(** X2: the column check looks at the set of header names only: a header
    that contains every name of a header that passes, in any order and with
    any further columns, passes as well. *)
Theorem column_check_ignores_order_and_extras (f g : UploadedFile) :
  (forall col, In col (file_columns f) -> In col (file_columns g)) ->
  has_expected_columns f = true ->
  has_expected_columns g = true.
Proof.
  intros Hincl Hf. unfold has_expected_columns in *.
  apply forallb_forall. intros col Hcol.
  apply existsb_eqb_In. apply Hincl. apply existsb_eqb_In.
  exact (proj1 (forallb_forall _ _) Hf col Hcol).
Qed.

Lemma column_check_ignores_order_and_extras_witness :
  (forall col, In col (file_columns (mkFile "plain.csv" expected_columns [])) ->
               In col (file_columns file_reordered)) /\
  has_expected_columns (mkFile "plain.csv" expected_columns []) = true /\
  has_expected_columns file_reordered = true.
Proof.
  assert (H : forall col,
             In col (file_columns (mkFile "plain.csv" expected_columns [])) ->
             In col (file_columns file_reordered)).
  { intros col Hin. cbn in Hin. cbn.
    repeat (destruct Hin as [<-|Hin]; [tauto|]). contradiction. }
  split; [exact H|]. split; [reflexivity|].
  exact (column_check_ignores_order_and_extras
           (mkFile "plain.csv" expected_columns []) file_reordered H eq_refl).
Defined.

(** X3: before the metrics (lines 82-160) a pass can end in exactly these
    ways, decided by the inputs: nothing uploaded; the first upload that
    fails lacks a column (stop, with the error naming it); the first upload
    that fails could not be read (outer handler, with the text of the
    exception); every upload is read and passes but no vendor is selected
    (outer handler, with the text of KeyError(True)).  It gets to the metrics
    exactly when there is an upload, every upload is read and passes the
    check, and some vendor is selected. *)
Theorem exits_before_metrics (py_eval : string -> EvalResult)
    (uploads : list Upload) (sc : list string) (sv : list Z) (text : string) :
  let o := run_uploads py_eval uploads sc sv text in
  (early_exit o = Some InfoOnly <-> uploads = []) /\
  (forall msg,
     early_exit o = Some (StopWith msg) <->
     exists before u after,
       uploads = before ++ u :: after /\ forallb upload_ok before = true /\
       upload_lacks_column u /\ msg = names_file u) /\
  (forall msg,
     early_exit o = Some (ErrorWith msg) <->
     (exists before u after e,
        uploads = before ++ u :: after /\ forallb upload_ok before = true /\
        read_csv u = inl e /\ msg = crash_message e) \/
     (uploads <> [] /\ forallb upload_ok uploads = true /\ sv = [] /\
      msg = "Error loading files: True. Ensure all files are valid tab-separated files with the same structure.")) /\
  (early_exit o = None <->
   uploads <> [] /\ forallb upload_ok uploads = true /\ sv <> []).
Proof.
  cbv zeta.
  assert (Hstop : forall before u after,
            uploads = before ++ u :: after -> forallb upload_ok before = true ->
            upload_lacks_column u ->
            run_uploads py_eval uploads sc sv text = Stopped (names_file u)).
  { intros before u after -> Hb Hl. apply run_uploads_refuses; assumption. }
  assert (Hraise : forall before u after e,
            uploads = before ++ u :: after -> forallb upload_ok before = true ->
            read_csv u = inl e ->
            run_uploads py_eval uploads sc sv text = Crashed (crash_message e)).
  { intros before u after e -> Hb He. apply run_uploads_raises; assumption. }
  assert (Hkey : uploads <> [] -> forallb upload_ok uploads = true -> sv = [] ->
            run_uploads py_eval uploads sc sv text = Crashed (crash_message "True")).
  { intros Hne Hok ->. rewrite (run_uploads_run py_eval _ sc [] text Hok).
    apply empty_vendor_selection_crashes. apply uploads_valid; assumption. }
  assert (Hrend : uploads <> [] -> forallb upload_ok uploads = true -> sv <> [] ->
            exists d, run_uploads py_eval uploads sc sv text = Rendered d).
  { intros Hne Hok Hsv. rewrite (run_uploads_run py_eval _ sc sv text Hok).
    eexists. apply (run_rendered py_eval); [apply uploads_valid|]; assumption. }
  assert (Hnil : uploads = [] -> run_uploads py_eval uploads sc sv text = NoUpload).
  { intros ->. reflexivity. }
  pose proof (run_uploads_cases py_eval uploads sc sv text) as Hc. cbv zeta in Hc.
  split; [|split; [|split]].
  - split.
    + intros H.
      destruct Hc as [[E _]|[[b [u [a [e [_ [_ [_ Ho]]]]]]]|[[b [u [a [_ [_ [_ Ho]]]]]]
                     |[[_ [_ [_ Ho]]]|[_ [_ [_ [d Ho]]]]]]]];
        [exact E | | | |]; rewrite Ho in H; discriminate H.
    + intros E. rewrite (Hnil E). reflexivity.
  - intros msg. split.
    + intros H.
      destruct Hc as [[_ Ho]|[[b [u [a [e [_ [_ [_ Ho]]]]]]]|[[b [u [a [E [Hb [Hl Ho]]]]]]
                     |[[_ [_ [_ Ho]]]|[_ [_ [_ [d Ho]]]]]]]];
        rewrite Ho in H; try discriminate H.
      injection H as <-. exists b, u, a. repeat split; assumption.
    + intros [b [u [a [E [Hb [Hl ->]]]]]]. rewrite (Hstop b u a E Hb Hl). reflexivity.
  - intros msg. split.
    + intros H.
      destruct Hc as [[_ Ho]|[[b [u [a [e [E [Hb [He Ho]]]]]]]|[[b [u [a [_ [_ [_ Ho]]]]]]
                     |[[Hne [Hok [Hsv Ho]]]|[_ [_ [_ [d Ho]]]]]]]];
        rewrite Ho in H; try discriminate H; injection H as <-.
      * left. exists b, u, a, e. repeat split; assumption.
      * right. repeat split; assumption.
    + intros [[b [u [a [e [E [Hb [He ->]]]]]]]|[Hne [Hok [Hsv ->]]]].
      * rewrite (Hraise b u a e E Hb He). reflexivity.
      * rewrite (Hkey Hne Hok Hsv). reflexivity.
  - split.
    + intros H.
      destruct Hc as [[_ Ho]|[[b [u [a [e [_ [_ [_ Ho]]]]]]]|[[b [u [a [_ [_ [_ Ho]]]]]]
                     |[[_ [_ [_ Ho]]]|[Hne [Hok [Hsv _]]]]]]];
        try (rewrite Ho in H; discriminate H).
      repeat split; assumption.
    + intros [Hne [Hok Hsv]]. destruct (Hrend Hne Hok Hsv) as [d Hd].
      rewrite Hd. reflexivity.
Qed.

(** X4: the stop with the text "No valid data loaded from the uploaded
    files." (lines 98-100) never happens. *)
Theorem no_valid_data_stop_is_dead (py_eval : string -> EvalResult)
    (files : list UploadedFile) (sc : list string) (sv : list Z) (text : string) :
  run py_eval files sc sv text <>
  Stopped "No valid data loaded from the uploaded files.".
Proof.
  unfold run. destruct files as [|f0 files]; [discriminate|].
  destruct (forallb has_expected_columns (f0 :: files)) eqn:E.
  - rewrite (read_files_ok (f0 :: files) [] E). cbn [app map].
    unfold analyse. destruct (select_metrics_df _ sv); [discriminate|].
    destruct (parse_vendor_map py_eval text). discriminate.
  - destruct (read_files_stops (f0 :: files) [] E) as [b [g [a [_ [_ [_ Hr]]]]]].
    rewrite Hr. unfold schema_error. cbn. discriminate.
Qed.

(** ** Sidebar options and the views *)

Lemma insert_vid_In (v : Z) (l : list Z) (k : Z) :
  In k (insert_vid v l) <-> k = v \/ In k l.
Proof.
  induction l as [|x l IH]; cbn [insert_vid].
  - cbn. intuition.
  - destruct (v <? x)%Z; [cbn [In]; intuition|].
    destruct (Z.eqb_spec v x) as [->|Hne]; cbn [In].
    + intuition.
    + rewrite IH. intuition.
Qed.

Lemma insert_vid_sorted (v : Z) (l : list Z) :
  StronglySorted Z.lt l -> StronglySorted Z.lt (insert_vid v l).
Proof.
  induction l as [|x l IH]; cbn [insert_vid]; intros Hs.
  - constructor; constructor.
  - inversion Hs as [|a l' Hl Hall]; subst.
    destruct (Z.ltb_spec v x) as [Hlt|Hge].
    + constructor; [exact Hs|]. constructor; [exact Hlt|].
      eapply Forall_impl; [|exact Hall]. intros k Hk. cbn in Hk. lia.
    + destruct (Z.eqb_spec v x) as [->|Hne]; [exact Hs|].
      constructor; [apply IH; exact Hl|].
      apply Forall_forall. intros k Hk. apply insert_vid_In in Hk.
      destruct Hk as [->|Hk]; [lia|].
      exact (proj1 (Forall_forall _ _) Hall k Hk).
Qed.

Lemma vids_fold (df : DataFrame) (acc : list Z) :
  let step := fun acc r =>
    match Vid r with Some v => insert_vid v acc | None => acc end in
  (StronglySorted Z.lt acc -> StronglySorted Z.lt (fold_left step df acc)) /\
  (forall k, In k (fold_left step df acc) <->
             In k acc \/ exists r, In r df /\ Vid r = Some k).
Proof.
  cbv zeta. revert acc. induction df as [|r df IH]; intros acc; cbn [fold_left].
  - split; [tauto|]. intros k. split; [tauto|].
    intros [H|[r [[] _]]]. exact H.
  - destruct (IH (match Vid r with Some v => insert_vid v acc | None => acc end))
      as [IHs IHi].
    split.
    + intros Hs. apply IHs. destruct (Vid r); [apply insert_vid_sorted|]; exact Hs.
    + intros k. rewrite IHi. destruct (Vid r) as [v|] eqn:Ev.
      * rewrite insert_vid_In. split.
        -- intros [[->|H]|[r' [Hin Hr']]].
           ++ right. exists r. split; [left; reflexivity | exact Ev].
           ++ left. exact H.
           ++ right. exists r'. split; [right; exact Hin | exact Hr'].
        -- intros [H|[r' [[<-|Hin] Hr']]].
           ++ left. right. exact H.
           ++ left. left. congruence.
           ++ right. exists r'. split; assumption.
      * split.
        -- intros [H|[r' [Hin Hr']]]; [left; exact H|].
           right. exists r'. split; [right; exact Hin | exact Hr'].
        -- intros [H|[r' [[<-|Hin] Hr']]]; [left; exact H | congruence |].
           right. exists r'. split; assumption.
Qed.

Lemma vids_In (df : DataFrame) (v : Z) :
  In v (vids df) <-> exists r, In r df /\ Vid r = Some v.
Proof.
  destruct (vids_fold df []) as [_ Hi]. unfold vids. rewrite Hi. cbn. tauto.
Qed.

(** X5: the vendor ids offered in the sidebar are in strictly ascending
    order, so none is offered twice, and they are exactly the ids carried by
    some row; a missing id is not among them. *)
Theorem vids_sorted_complete (df : DataFrame) :
  StronglySorted Z.lt (vids df) /\
  forall v, In v (vids df) <-> exists r, In r df /\ Vid r = Some v.
Proof.
  destruct (vids_fold df []) as [Hs _]. split.
  - apply Hs. constructor.
  - apply vids_In.
Qed.

Lemma unique_str_In (l : list string) (y : string) :
  In y (unique_str l) <-> In y l.
Proof.
  induction l as [|x l IH]; cbn [unique_str In]; [tauto|].
  rewrite filter_In, IH. destruct (String.eqb_spec x y) as [->|Hne].
  - cbn. tauto.
  - cbn. intuition.
Qed.

Lemma unique_str_NoDup (l : list string) : NoDup (unique_str l).
Proof.
  induction l as [|x l IH]; cbn [unique_str]; constructor.
  - rewrite filter_In. intros [_ H]. rewrite String.eqb_refl in H. discriminate.
  - apply NoDup_filter. exact IH.
Qed.

Lemma channel_types_In (df : DataFrame) (c : string) :
  In c (channel_types df) <-> exists r, In r df /\ Channel_Type r = Some c.
Proof.
  unfold channel_types. rewrite unique_str_In, in_flat_map. split.
  - intros [r [Hin Hc]]. exists r. split; [exact Hin|].
    destruct (Channel_Type r) as [c'|]; [|contradiction].
    destruct Hc as [->|[]]. reflexivity.
  - intros [r [Hin Hc]]. exists r. split; [exact Hin|]. rewrite Hc. left. reflexivity.
Qed.

(** X6: the channel types offered in the sidebar are pairwise distinct and
    are exactly the channel types carried by some row. *)
Theorem channel_types_distinct_complete (df : DataFrame) :
  NoDup (channel_types df) /\
  forall c, In c (channel_types df) <-> exists r, In r df /\ Channel_Type r = Some c.
Proof.
  split; [apply unique_str_NoDup | apply channel_types_In].
Qed.

Lemma vid_isin_true (sv : list Z) (r : Row) :
  vid_isin sv r = true <-> exists v, Vid r = Some v /\ In v sv.
Proof.
  unfold vid_isin. destruct (Vid r) as [v|].
  - rewrite existsb_exists. split.
    + intros [k [Hin Hk]]. apply Z.eqb_eq in Hk. subst. exists k. tauto.
    + intros [k [E Hin]]. inversion E; subst. exists k.
      split; [exact Hin | apply Z.eqb_refl].
  - split; [discriminate | intros [v [E _]]; discriminate E].
Qed.

Lemma channel_isin_true (sc : list string) (r : Row) :
  channel_isin sc r = true <-> exists c, Channel_Type r = Some c /\ In c sc.
Proof.
  unfold channel_isin. destruct (Channel_Type r) as [c|].
  - rewrite existsb_eqb_In. split.
    + intros Hin. exists c. tauto.
    + intros [k [E Hin]]. inversion E; subst. exact Hin.
  - split; [discriminate | intros [c [E _]]; discriminate E].
Qed.

(** X7: a non-empty selection taken from the offered vendor ids always
    finds rows: the pass completes, every selected vendor has a row in the
    metrics view, and that view is not empty. *)
Theorem offered_selection_matches (py_eval : string -> EvalResult)
    (files : list UploadedFile) (sc : list string) (sv : list Z) (text : string) :
  valid_batch files -> sv <> [] ->
  (forall v, In v sv -> In v (vids (List.concat (map file_rows files)))) ->
  exists d,
    run py_eval files sc sv text = Rendered d /\
    metrics_df d <> [] /\
    forall v, In v sv -> exists r, In r (metrics_df d) /\ Vid r = Some v.
Proof.
  intros Hv Hsv Hoff. eexists.
  split; [apply (run_rendered py_eval); assumption|]. cbn [metrics_df].
  assert (Hrow : forall v, In v sv ->
            exists r, In r (filter (vid_isin sv) (List.concat (map file_rows files)))
                      /\ Vid r = Some v).
  { intros v Hin. destruct (proj1 (vids_In _ v) (Hoff v Hin)) as [r [Hr Ev]].
    exists r. split; [|exact Ev]. apply filter_In. split; [exact Hr|].
    apply vid_isin_true. exists v. tauto. }
  split; [|exact Hrow].
  destruct sv as [|v sv]; [congruence|].
  destruct (Hrow v (or_introl eq_refl)) as [r [Hin _]].
  intros Hnil. rewrite Hnil in Hin. contradiction.
Qed.

Lemma file_two_vendors_valid : valid_batch [file_two_vendors].
Proof.
  split; [discriminate|].
  intros f [<-|[]] Hl. apply has_expected_columns_false in Hl. discriminate Hl.
Defined.

Lemma offered_selection_matches_witness :
  exists d,
    run sample_eval [file_two_vendors] all_channels [254754%Z] default_mapping_text
      = Rendered d /\
    metrics_df d <> [] /\
    forall v, In v [254754%Z] -> exists r, In r (metrics_df d) /\ Vid r = Some v.
Proof.
  apply (offered_selection_matches sample_eval [file_two_vendors] all_channels
           [254754%Z] default_mapping_text file_two_vendors_valid).
  - discriminate.
  - intros v [<-|[]]. right. left. reflexivity.
Defined.

(** C7, on the selections the sidebar can make.  A vendor selection taken
    from the offered vendor ids matches no row only when it is empty, and
    then, on every batch that loads, the pass ends in the outer error handler
    with the text of KeyError(True): no metrics view is built and no metric
    is shown, where the claim expects an empty view, 0.00 everywhere and no
    error. *)
Theorem C7_excluding_every_vendor_crashes (py_eval : string -> EvalResult)
    (files : list UploadedFile) (sc : list string) (sv : list Z) (text : string) :
  valid_batch files ->
  (forall v, In v sv -> In v (vids (List.concat (map file_rows files)))) ->
  matches_no_row (List.concat (map file_rows files)) sv ->
  sv = [] /\
  run py_eval files sc sv text
  = Crashed "Error loading files: True. Ensure all files are valid tab-separated files with the same structure." /\
  shown_metrics (run py_eval files sc sv text) = None.
Proof.
  intros Hv Hoff Hno.
  assert (Hsv : sv = []).
  { destruct sv as [|v sv]; [reflexivity|]. exfalso.
    destruct (proj1 (vids_In _ v) (Hoff v (or_introl eq_refl))) as [r [Hr Ev]].
    pose proof (Hno r Hr) as Hf.
    rewrite (proj2 (vid_isin_true (v :: sv) r)) in Hf; [discriminate Hf|].
    exists v. split; [exact Ev | left; reflexivity]. }
  subst sv. rewrite (empty_vendor_selection_crashes py_eval files sc text Hv).
  repeat split.
Qed.

Lemma C7_excluding_every_vendor_crashes_witness :
  valid_batch [file_A] /\
  matches_no_row (List.concat (map file_rows [file_A])) [] /\
  run sample_eval [file_A] all_channels [] default_mapping_text
  = Crashed "Error loading files: True. Ensure all files are valid tab-separated files with the same structure." /\
  shown_metrics (run sample_eval [file_A] all_channels [] default_mapping_text) = None.
Proof.
  assert (Hno : matches_no_row (List.concat (map file_rows [file_A])) []).
  { intros r _. unfold vid_isin. destruct (Vid r); reflexivity. }
  split; [exact file_A_valid|]. split; [exact Hno|].
  exact (proj2 (C7_excluding_every_vendor_crashes sample_eval [file_A] all_channels []
                  default_mapping_text file_A_valid
                  (fun v (H : In v []) => match H with end) Hno)).
Defined.

(** X8: a row whose vendor id is missing is in neither view of a completed
    pass, whatever is selected; a row whose channel type is missing is never
    in the report view. *)
Theorem rows_without_vid_are_dropped (py_eval : string -> EvalResult)
    (files : list UploadedFile) (sc : list string) (sv : list Z) (text : string)
    (d : Dashboard) :
  run py_eval files sc sv text = Rendered d ->
  (forall r, In r (metrics_df d) -> Vid r <> None) /\
  (forall r, In r (filtered_df d) -> Vid r <> None /\ Channel_Type r <> None).
Proof.
  intros H. destruct (run_rendered_inv _ _ _ _ _ _ H) as [Hv Hsv].
  rewrite (run_rendered py_eval files sc sv text Hv Hsv) in H.
  injection H as <-. cbn [metrics_df filtered_df]. split.
  - intros r Hin. apply filter_In in Hin. destruct Hin as [_ Hin].
    apply vid_isin_true in Hin. destruct Hin as [v [E _]]. congruence.
  - intros r Hin. unfold rows_passing_both in Hin. apply filter_In in Hin.
    destruct Hin as [_ Hin]. apply andb_true_iff in Hin. destruct Hin as [H1 H2].
    apply vid_isin_true in H1. apply channel_isin_true in H2.
    destruct H1 as [v [E1 _]], H2 as [c [E2 _]]. split; congruence.
Qed.

Lemma rows_without_vid_are_dropped_witness :
  exists d,
    run sample_eval [file_gap] all_channels [vendlite] default_mapping_text
      = Rendered d /\
    List.length (file_rows file_gap) = 2%nat /\
    List.length (metrics_df d) = 1%nat /\
    (forall r, In r (metrics_df d) -> Vid r <> None) /\
    (forall r, In r (filtered_df d) -> Vid r <> None /\ Channel_Type r <> None).
Proof.
  eexists. split; [reflexivity|]. split; [reflexivity|]. split; [reflexivity|].
  exact (rows_without_vid_are_dropped sample_eval [file_gap] all_channels
           [vendlite] default_mapping_text _ eq_refl).
Defined.

(** X9: with the sidebar left at its defaults (every offered vendor and
    every offered channel selected) the metrics view is the rows that have a
    vendor id and the report view is those of them that have a channel type. *)
Theorem default_selection_views (py_eval : string -> EvalResult)
    (files : list UploadedFile) (text : string) :
  let df := List.concat (map file_rows files) in
  valid_batch files -> vids df <> [] ->
  exists d,
    run py_eval files (channel_types df) (vids df) text = Rendered d /\
    metrics_df d = filter has_vid df /\
    filtered_df d = filter (fun r => has_vid r && has_channel r) df.
Proof.
  intros df Hv Hsv. eexists.
  split; [apply (run_rendered py_eval); assumption|].
  cbn [metrics_df filtered_df]. fold df.
  assert (Hvid : forall r, In r df -> vid_isin (vids df) r = has_vid r).
  { intros r Hin. unfold has_vid. destruct (Vid r) as [v|] eqn:Ev; cbn [is_some].
    - apply vid_isin_true. exists v. split; [exact Ev|].
      apply vids_In. exists r. tauto.
    - unfold vid_isin. rewrite Ev. reflexivity. }
  assert (Hch : forall r, In r df -> channel_isin (channel_types df) r = has_channel r).
  { intros r Hin. unfold has_channel.
    destruct (Channel_Type r) as [c|] eqn:Ec; cbn [is_some].
    - apply channel_isin_true. exists c. split; [exact Ec|].
      apply channel_types_In. exists r. tauto.
    - unfold channel_isin. rewrite Ec. reflexivity. }
  split.
  - apply filter_ext_in. exact Hvid.
  - unfold rows_passing_both. apply filter_ext_in. intros r Hin.
    rewrite (Hvid r Hin), (Hch r Hin). reflexivity.
Qed.

Lemma default_selection_views_witness :
  let df := List.concat (map file_rows [file_gap]) in
  exists d,
    run sample_eval [file_gap] (channel_types df) (vids df) default_mapping_text
      = Rendered d /\
    metrics_df d = filter has_vid df /\
    filtered_df d = filter (fun r => has_vid r && has_channel r) df.
Proof.
  apply (default_selection_views sample_eval [file_gap] default_mapping_text
           file_gap_valid).
  discriminate.
Defined.

(** ** Figures *)

(** X10: the remittance in closed form: 98.5 percent of the C2B revenue,
    less the refunds taken positive whatever their sign, less the Ipay
    commissions and VAT of all rows, less 58 per uploaded file. *)
Theorem amount_to_remit_closed_form (view : DataFrame) (dfs : list DataFrame) :
  let m := calc_metrics view dfs in
  amount_to_remit m ==
    (197 # 200) * col_sum Amount (filter (channel_is "C2B") view)
    - Qabs (col_sum Amount (filter (channel_is "REFUND") view))
    - col_sum Commission view - col_sum Vat view - 58 * len_Q dfs
  /\ 0 <= total_refunds m.
Proof.
  cbv zeta. unfold calc_metrics. cbn [amount_to_remit total_refunds].
  split; [ring | apply Qabs_nonneg].
Qed.

Lemma filter_channel_selected (c : string) (sc : list string) (view : DataFrame) :
  In c sc ->
  filter (channel_is c) (select_filtered_df view sc) = filter (channel_is c) view.
Proof.
  intros Hin. unfold select_filtered_df. rewrite filter_filter.
  apply filter_ext. intros r. unfold channel_isin, channel_is.
  destruct (Channel_Type r) as [s|]; [|reflexivity].
  destruct (String.eqb_spec s c) as [->|Hne].
  - rewrite (proj2 (existsb_eqb_In c sc) Hin). reflexivity.
  - apply andb_false_r.
Qed.

Lemma filter_channel_deselected (c : string) (sc : list string) (view : DataFrame) :
  ~ In c sc ->
  filter (channel_is c) (select_filtered_df view sc) = [].
Proof.
  intros Hno. apply filter_none. intros r Hin.
  unfold select_filtered_df in Hin. apply filter_In in Hin. destruct Hin as [_ Hin].
  unfold channel_isin in Hin. unfold channel_is.
  destruct (Channel_Type r) as [s|]; [|reflexivity].
  destruct (String.eqb_spec s c) as [->|Hne]; [|reflexivity].
  exfalso. apply Hno. apply existsb_eqb_In. exact Hin.
Qed.

(** X11: in the report, Total Revenue and the Nayax and BCK commissions
    depend on the channel selection only through C2B: with C2B selected they
    are those of the metrics view, whatever else is selected, and with C2B
    deselected they are zero; likewise Total Refunds and REFUND. *)
Theorem report_revenue_follows_c2b_selection (metrics_view : DataFrame)
    (sc : list string) (dfs : list DataFrame) :
  let m := calc_metrics metrics_view dfs in
  let rm := calc_report (select_filtered_df metrics_view sc) dfs in
  (In "C2B" sc ->
   total_revenue rm = total_revenue m /\
   nayax_commission rm = nayax_commission m /\
   bck_commission rm = bck_commission m) /\
  (~ In "C2B" sc ->
   total_revenue rm = 0 /\ nayax_commission rm == 0 /\ bck_commission rm == 0) /\
  (In "REFUND" sc -> total_refunds rm = total_refunds m) /\
  (~ In "REFUND" sc -> total_refunds rm = 0).
Proof.
  cbv zeta. unfold calc_report, calc_metrics.
  cbn [total_revenue nayax_commission bck_commission total_refunds].
  split; [|split; [|split]].
  - intros Hin. rewrite (filter_channel_selected "C2B" sc metrics_view Hin).
    repeat split.
  - intros Hno. rewrite (filter_channel_deselected "C2B" sc metrics_view Hno).
    cbn [col_sum]. repeat split; reflexivity.
  - intros Hin. rewrite (filter_channel_selected "REFUND" sc metrics_view Hin).
    reflexivity.
  - intros Hno. rewrite (filter_channel_deselected "REFUND" sc metrics_view Hno).
    reflexivity.
Qed.

Lemma report_revenue_follows_c2b_selection_witness :
  let m := calc_metrics (file_rows file_A) [file_rows file_A] in
  let rm := calc_report (select_filtered_df (file_rows file_A) ["C2B"])
              [file_rows file_A] in
  (In "C2B" ["C2B"] ->
   total_revenue rm = total_revenue m /\
   nayax_commission rm = nayax_commission m /\
   bck_commission rm = bck_commission m) /\
  (~ In "C2B" ["C2B"] ->
   total_revenue rm = 0 /\ nayax_commission rm == 0 /\ bck_commission rm == 0) /\
  (In "REFUND" ["C2B"] -> total_refunds rm = total_refunds m) /\
  (~ In "REFUND" ["C2B"] -> total_refunds rm = 0).
Proof.
  exact (report_revenue_follows_c2b_selection (file_rows file_A) ["C2B"]
           [file_rows file_A]).
Defined.

(** X12: when every row of the metrics view carries a selected channel type
    and one of them is a BANKCOST row, the report figures are the metrics
    figures, all nine of them. *)
Theorem report_equals_metrics_when_nothing_filtered (metrics_view : DataFrame)
    (sc : list string) (dfs : list DataFrame) :
  (forall r, In r metrics_view -> channel_isin sc r = true) ->
  (exists r, In r metrics_view /\ Channel_Type r = Some "BANKCOST") ->
  calc_report (select_filtered_df metrics_view sc) dfs = calc_metrics metrics_view dfs.
Proof.
  intros Hall Hb.
  assert (E : select_filtered_df metrics_view sc = metrics_view).
  { unfold select_filtered_df. clear Hb.
    induction metrics_view as [|r view IH]; [reflexivity|].
    cbn [filter]. rewrite (Hall r (or_introl eq_refl)). f_equal.
    apply IH. intros r' Hin. apply Hall. right. exact Hin. }
  rewrite E. unfold calc_report, calc_metrics.
  rewrite (proj2 (has_bankcost_true metrics_view) Hb). reflexivity.
Qed.

Lemma report_equals_metrics_when_nothing_filtered_witness :
  (forall r, In r (file_rows file_A) -> channel_isin all_channels r = true) /\
  (exists r, In r (file_rows file_A) /\ Channel_Type r = Some "BANKCOST") /\
  calc_report (select_filtered_df (file_rows file_A) all_channels) [file_rows file_A]
  = calc_metrics (file_rows file_A) [file_rows file_A].
Proof.
  assert (H1 : forall r, In r (file_rows file_A) -> channel_isin all_channels r = true).
  { intros r Hin. cbn in Hin.
    repeat (destruct Hin as [<-|Hin]; [reflexivity|]). contradiction. }
  assert (H2 : exists r, In r (file_rows file_A) /\ Channel_Type r = Some "BANKCOST").
  { eexists. split; [right; right; left; reflexivity | reflexivity]. }
  split; [exact H1|]. split; [exact H2|].
  exact (report_equals_metrics_when_nothing_filtered (file_rows file_A)
           all_channels [file_rows file_A] H1 H2).
Defined.

(** ** The vendor mapping, continued *)

(** X13: the mapping text, and whatever [eval] makes of it, changes no
    figure: both views, every metric, every tile and every line of the report
    are the same for any two texts, and a pass that ends early ends the same
    way. *)
Theorem mapping_text_changes_no_figure (eval1 eval2 : string -> EvalResult)
    (files : list UploadedFile) (sc : list string) (sv : list Z)
    (text1 text2 : string) :
  figures (run eval1 files sc sv text1) = figures (run eval2 files sc sv text2).
Proof.
  unfold run. destruct files as [|f files]; [reflexivity|].
  destruct (read_files (f :: files) []) as [msg|[|df0 more]]; try reflexivity.
  unfold analyse. destruct (select_metrics_df _ sv); [reflexivity|].
  destruct (parse_vendor_map eval1 text1), (parse_vendor_map eval2 text2).
  reflexivity.
Qed.

(** X14: a blank mapping text is never evaluated: the pass is the same
    under any [eval], the dictionary in force is empty, no warning is shown,
    and every vendor name is the vendor id written as text. *)
Theorem blank_mapping_text (eval1 eval2 : string -> EvalResult)
    (files : list UploadedFile) (sc : list string) (sv : list Z) (text : string) :
  Py.strip_is_empty text = true ->
  run eval1 files sc sv text = run eval2 files sc sv text /\
  forall d,
    run eval1 files sc sv text = Rendered d ->
    vendor_map d = [] /\ sidebar_error d = None /\
    metrics_vendor_name d =
      map (fun r => vid_str (vid_dtype (List.concat (map file_rows files))) (Vid r))
        (metrics_df d).
Proof.
  intros Hb.
  assert (P : forall ev, parse_vendor_map ev text = ([], None)).
  { intros ev. unfold parse_vendor_map. rewrite Hb. reflexivity. }
  split.
  - unfold run. destruct files as [|f files]; [reflexivity|].
    destruct (read_files (f :: files) []) as [msg|[|df0 more]]; try reflexivity.
    unfold analyse. rewrite (P eval1), (P eval2). reflexivity.
  - intros d H. destruct (run_rendered_inv _ _ _ _ _ _ H) as [Hv Hsv].
    rewrite (run_rendered eval1 files sc sv text Hv Hsv) in H.
    injection H as <-. rewrite (P eval1).
    cbn [vendor_map sidebar_error metrics_vendor_name metrics_df fst snd].
    split; [reflexivity|]. split; [reflexivity|].
    apply vendor_name_unmapped. reflexivity.
Qed.

Lemma blank_mapping_text_witness :
  Py.strip_is_empty "   " = true /\
  run sample_eval [file_gap] all_channels [vendlite] "   " =
  run (fun _ => Raises "unused") [file_gap] all_channels [vendlite] "   " /\
  forall d,
    run sample_eval [file_gap] all_channels [vendlite] "   " = Rendered d ->
    vendor_map d = [] /\ sidebar_error d = None /\
    metrics_vendor_name d =
      map (fun r => vid_str (vid_dtype (List.concat (map file_rows [file_gap]))) (Vid r))
        (metrics_df d).
Proof.
  split; [reflexivity|].
  exact (blank_mapping_text sample_eval (fun _ => Raises "unused") [file_gap]
           all_channels [vendlite] "   " eq_refl).
Defined.

Lemma dict_get_hit (dict : PyDict) (v : Z) (display : string) :
  distinct_keys dict -> In (KInt v, display) dict -> dict_get dict v = Some display.
Proof.
  unfold distinct_keys. induction dict as [|[k n] dict IH]; intros Hnd Hin;
    [contradiction|].
  cbn [map fst] in Hnd. inversion Hnd as [|a l Hnot Hnd']; subst.
  cbn [dict_get]. destruct Hin as [E|Hin].
  - inversion E; subst. cbn [key_eq]. rewrite Z.eqb_refl. reflexivity.
  - destruct k as [z|s]; cbn [key_eq].
    + destruct (Z.eqb_spec z v) as [->|Hne]; [|apply IH; assumption].
      exfalso. apply Hnot. apply (in_map fst) in Hin. exact Hin.
    + apply IH; assumption.
Qed.

(** X15: when the mapping text evaluates to a dictionary with the integer
    key [v], every row of either view whose vendor id is [v] is shown under
    the name given for [v], in an integer column and in a float column alike,
    and no warning is shown. *)
Theorem integer_key_names_vendor (py_eval : string -> EvalResult)
    (files : list UploadedFile) (sc : list string) (sv : list Z) (text : string)
    (dict : PyDict) (v : Z) (display : string) (d : Dashboard) :
  Py.strip_is_empty text = false -> py_eval text = Returns dict ->
  distinct_keys dict -> In (KInt v, display) dict ->
  run py_eval files sc sv text = Rendered d ->
  sidebar_error d = None /\
  (forall r n, In (r, n) (combine (metrics_df d) (metrics_vendor_name d)) ->
               Vid r = Some v -> n = display) /\
  (forall r n, In (r, n) (combine (filtered_df d) (filtered_vendor_name d)) ->
               Vid r = Some v -> n = display).
Proof.
  intros Hb He Hk Hin H. destruct (run_rendered_inv _ _ _ _ _ _ H) as [Hv Hsv].
  rewrite (run_rendered py_eval files sc sv text Hv Hsv) in H.
  injection H as <-. rewrite (parse_vendor_map_returns py_eval text dict Hb He).
  cbn [sidebar_error metrics_df metrics_vendor_name filtered_df
       filtered_vendor_name fst snd].
  pose proof (dict_get_hit dict v display Hk Hin) as Hget.
  assert (G : forall (view : DataFrame) dt r n,
            In (r, n) (combine view (map (vendor_name dict dt) view)) ->
            Vid r = Some v -> n = display).
  { intros view dt r n Hc Ev. induction view as [|r0 view IH]; [contradiction|].
    cbn [map combine] in Hc. destruct Hc as [E|Hc]; [|exact (IH Hc)].
    inversion E; subst. unfold vendor_name. rewrite Ev, Hget. reflexivity. }
  split; [reflexivity|]. split; intros r n; apply G.
Qed.

Lemma integer_key_names_vendor_witness :
  exists d,
    run sample_eval [file_gap] all_channels [vendlite] "{254499: 'Vendlite'}"
      = Rendered d /\
    metrics_vendor_name d = ["Vendlite"] /\
    sidebar_error d = None /\
    (forall r n, In (r, n) (combine (metrics_df d) (metrics_vendor_name d)) ->
                 Vid r = Some 254499%Z -> n = "Vendlite") /\
    (forall r n, In (r, n) (combine (filtered_df d) (filtered_vendor_name d)) ->
                 Vid r = Some 254499%Z -> n = "Vendlite").
Proof.
  eexists. split; [reflexivity|]. split; [reflexivity|].
  apply (integer_key_names_vendor sample_eval [file_gap] all_channels [vendlite]
           "{254499: 'Vendlite'}" [(KInt 254499, "Vendlite")] 254499%Z "Vendlite").
  - reflexivity.
  - reflexivity.
  - constructor; [intros [] | constructor].
  - left. reflexivity.
  - reflexivity.
Defined.

(** ** Average daily revenue, continued *)

Lemma groupby_undated (col : Row -> option Q) (view : DataFrame)
    (acc : list (Z * Q)) :
  (forall r, In r view -> Date_only r = None) ->
  fold_left
    (fun groups r =>
       match Date_only r with
       | Some d => group_add d (nan_to_zero (col r)) groups
       | None => groups
       end) view acc = acc.
Proof.
  revert acc. induction view as [|r view IH]; intros acc H; [reflexivity|].
  cbn [fold_left]. rewrite (H r (or_introl eq_refl)).
  apply IH. intros r' Hin. apply H. right. exact Hin.
Qed.

(** X16: on a metrics view that has rows but no dated row, the Avg Daily
    Revenue tile reads nan. *)
Theorem avg_daily_tile_nan (view : DataFrame) :
  view <> [] ->
  (forall r, In r view -> Date_only r = None) ->
  avg_daily_tile view = "nan".
Proof.
  intros Hne Hnone. unfold avg_daily_tile.
  destruct view as [|r0 view]; [congruence|].
  cbn [map unique List.length Nat.ltb Nat.leb].
  unfold groupby_date_sum. rewrite (groupby_undated Amount (r0 :: view) [] Hnone).
  reflexivity.
Qed.

Lemma avg_daily_tile_nan_witness :
  undated_view <> [] /\
  (forall r, In r undated_view -> Date_only r = None) /\
  avg_daily_tile undated_view = "nan".
Proof.
  assert (H1 : undated_view <> []) by discriminate.
  assert (H2 : forall r, In r undated_view -> Date_only r = None).
  { intros r [<-|[]]. reflexivity. }
  split; [exact H1|]. split; [exact H2|].
  exact (avg_daily_tile_nan undated_view H1 H2).
Defined.

(** ** The chart area *)

Lemma filter_nil_iff {A : Type} (p : A -> bool) (l : list A) :
  filter p l = [] <-> forall x, In x l -> p x = false.
Proof.
  split; [|apply filter_none].
  intros H x Hin. destruct (p x) eqn:E; [|reflexivity].
  assert (Hx : In x (filter p l)) by (apply filter_In; tauto).
  rewrite H in Hx. contradiction.
Qed.

(** X17: once the metrics and the report are on the page, drawing the
    charts raises the NameError on [daily_revenue] exactly when no row passes
    both filters, in particular whenever no channel is selected; otherwise
    the charts are drawn.  The outer handler then shows the text below. *)
Theorem chart_stage_fails_on_empty_report_view (py_eval : string -> EvalResult)
    (files : list UploadedFile) (sc : list string) (sv : list Z) (text : string)
    (d : Dashboard) :
  run py_eval files sc sv text = Rendered d ->
  let df := List.concat (map file_rows files) in
  let outcome := draw_charts (filtered_df d) (filtered_vendor_name d) in
  (outcome = inl "name 'daily_revenue' is not defined" <->
   forall r, In r df -> vid_isin sv r && channel_isin sc r = false) /\
  ((exists c, outcome = inr c) <->
   exists r, In r df /\ vid_isin sv r = true /\ channel_isin sc r = true) /\
  (sc = [] -> outcome = inl "name 'daily_revenue' is not defined") /\
  crash_message "name 'daily_revenue' is not defined" =
    "Error loading files: name 'daily_revenue' is not defined. Ensure all files are valid tab-separated files with the same structure.".
Proof.
  intros H. destruct (run_rendered_inv _ _ _ _ _ _ H) as [Hv Hsv].
  pose proof (empty_channel_selection_empties_report py_eval files sv text) as Hemp.
  rewrite (run_rendered py_eval files sc sv text Hv Hsv) in H.
  injection H as <-. cbv zeta. cbn [filtered_df filtered_vendor_name].
  unfold rows_passing_both.
  set (df := List.concat (map file_rows files)).
  set (p := fun r => vid_isin sv r && channel_isin sc r).
  assert (A : draw_charts (filter p df)
                (map (vendor_name (fst (parse_vendor_map py_eval text)) (vid_dtype df))
                   (filter p df)) = inl "name 'daily_revenue' is not defined"
              <-> forall r, In r df -> p r = false).
  { rewrite <- filter_nil_iff. unfold draw_charts.
    destruct (filter p df); split; try reflexivity; try discriminate. }
  split; [exact A|]. split; [|split; [|reflexivity]].
  - split.
    + intros [c Hc]. destruct (filter p df) as [|r rest] eqn:E; [discriminate Hc|].
      assert (Hin : In r (filter p df)) by (rewrite E; left; reflexivity).
      apply filter_In in Hin. destruct Hin as [Hin Hp].
      apply andb_true_iff in Hp. exists r. tauto.
    + intros [r [Hin [H1 H2]]].
      assert (Hf : In r (filter p df)).
      { apply filter_In. split; [exact Hin|]. unfold p. rewrite H1, H2. reflexivity. }
      unfold draw_charts. destruct (filter p df); [contradiction|].
      eexists. reflexivity.
  - intros ->. apply A. intros r _. unfold p, channel_isin.
    destruct (Channel_Type r); cbn; apply andb_false_r.
Qed.

Lemma chart_stage_fails_on_empty_report_view_witness :
  exists d,
    run sample_eval [file_A] [] [vendlite] default_mapping_text = Rendered d /\
    draw_charts (filtered_df d) (filtered_vendor_name d)
      = inl "name 'daily_revenue' is not defined".
Proof.
  eexists. split; [reflexivity|].
  exact (proj1 (proj2 (proj2
           (chart_stage_fails_on_empty_report_view sample_eval [file_A] []
              [vendlite] default_mapping_text _ eq_refl))) eq_refl).
Defined.

(** X24: with no channel selected, a completed pass reports a Filters
    Applied line that starts with Channel Types: All, while its report view
    is empty and all nine figures of the report read 0.00. *)
Theorem no_channel_selected_report (py_eval : string -> EvalResult)
    (files : list UploadedFile) (sv : list Z) (text : string) (d : Dashboard) :
  run py_eval files [] sv text = Rendered d ->
  filtered_df d = [] /\
  lookup "Filters Applied" (report d) =
    Some ("Channel Types: All, Vendor IDs: " ++
          Py.join ", "
            (map (fun v => vid_str (vid_dtype (List.concat (map file_rows files))) (Some v))
               sv))%string /\
  forall label,
    In label ["Total Revenue"; "Total Refunds"; "Ipay Commissions";
              "Bank Transfer Charges"; "VAT on Bank Transfer (16%)";
              "Nayax Commission (1% of C2B)"; "BCK Commission (0.5% of C2B)";
              "Total VAT"; "Amount to be Remitted"] ->
    lookup label (report d) = Some "0.00".
Proof.
  intros H. pose proof (empty_channel_selection_empties_report _ _ _ _ _ H) as He.
  destruct (run_rendered_inv _ _ _ _ _ _ H) as [Hv Hsv].
  rewrite (run_rendered py_eval files [] sv text Hv Hsv) in H.
  injection H as <-. cbn [filtered_df report] in *. rewrite He.
  split; [reflexivity|]. split.
  - destruct sv as [|v sv]; [congruence|]. reflexivity.
  - intros label Hin. cbn [In] in Hin.
    repeat (destruct Hin as [<-|Hin]; [reflexivity|]). contradiction.
Qed.

Lemma no_channel_selected_report_witness :
  exists d,
    run sample_eval [file_A] [] [vendlite] default_mapping_text = Rendered d /\
    filtered_df d = [] /\
    lookup "Filters Applied" (report d) =
      Some ("Channel Types: All, Vendor IDs: " ++
            Py.join ", "
              (map (fun v => vid_str (vid_dtype (List.concat (map file_rows [file_A])))
                               (Some v))
                 [vendlite]))%string /\
    forall label,
      In label ["Total Revenue"; "Total Refunds"; "Ipay Commissions";
                "Bank Transfer Charges"; "VAT on Bank Transfer (16%)";
                "Nayax Commission (1% of C2B)"; "BCK Commission (0.5% of C2B)";
                "Total VAT"; "Amount to be Remitted"] ->
      lookup label (report d) = Some "0.00".
Proof.
  eexists. split; [reflexivity|].
  exact (no_channel_selected_report sample_eval [file_A] [vendlite]
           default_mapping_text _ eq_refl).
Defined.

Lemma sort_values_date_sorted (l : list (Z * Q)) :
  StronglySorted Z.lt (map fst l) -> sort_values_date l = l.
Proof.
  induction l as [|h l IH]; intros Hs; [reflexivity|].
  cbn [map] in Hs. inversion Hs as [|a l' Hl Hall]; subst.
  unfold sort_values_date in *. cbn [fold_right]. rewrite (IH Hl).
  destruct l as [|h' l]; [reflexivity|].
  cbn [insert_by_date]. cbn [map] in Hall. inversion Hall as [|? ? Hlt _]; subst.
  destruct (Z.leb_spec (fst h) (fst h')); [reflexivity | lia].
Qed.

Lemma cumsum_from_length (acc : Q) (l : list Q) :
  List.length (cumsum_from acc l) = List.length l.
Proof.
  revert acc. induction l as [|x l IH]; intros acc; [reflexivity|].
  cbn [cumsum_from List.length]. rewrite IH. reflexivity.
Qed.

Lemma cumsum_length (l : list Q) : List.length (cumsum l) = List.length l.
Proof.
  destruct l; [reflexivity|]. cbn [cumsum List.length].
  rewrite cumsum_from_length. reflexivity.
Qed.

Lemma combine_map_fst {A B : Type} (l : list A) (l' : list B) :
  List.length l' = List.length l -> map fst (combine l l') = l.
Proof.
  revert l'. induction l as [|a l IH]; intros [|b l'] H; try discriminate H;
    [reflexivity|].
  cbn [combine map fst]. rewrite IH; [reflexivity|]. cbn in H. congruence.
Qed.

Lemma daily_revenue_groups (view : DataFrame) :
  map (fun row => (dr_date row, dr_amount row)) (daily_revenue view)
  = groupby_date_sum Amount view.
Proof.
  unfold daily_revenue.
  assert (Hs : StronglySorted Z.lt (map fst (groupby_date_sum Amount view))).
  { apply (groupby_fold_sorted Amount view []). constructor. }
  rewrite (sort_values_date_sorted _ Hs). rewrite map_map. cbn [dr_date dr_amount].
  rewrite <- (map_map fst (fun g => (fst g, snd g))).
  rewrite combine_map_fst by (rewrite cumsum_length, length_map; reflexivity).
  rewrite <- (map_id (groupby_date_sum Amount view)) at 2.
  apply map_ext. intros [k a]. reflexivity.
Qed.

(** X18: the daily series behind the line and bar charts has one point per
    distinct date of the report view, in strictly ascending date order, and
    the Amount of each point is the sum of Amount over all rows of that date;
    rows without a date appear in no point. *)
Theorem daily_revenue_series (view : DataFrame) :
  let series := daily_revenue view in
  StronglySorted Z.lt (map dr_date series) /\
  (forall d, In d (map dr_date series) <->
             exists r, In r view /\ Date_only r = Some d) /\
  (forall row, In row series -> dr_amount row == day_total view (dr_date row)).
Proof.
  cbv zeta. pose proof (daily_revenue_groups view) as G.
  assert (Gd : map dr_date (daily_revenue view) = map fst (groupby_date_sum Amount view)).
  { rewrite <- G, map_map. reflexivity. }
  split; [|split].
  - rewrite Gd. apply (groupby_fold_sorted Amount view []). constructor.
  - intros d. rewrite Gd. unfold groupby_date_sum.
    rewrite (groupby_fold_keys Amount view [] d). unfold dated.
    rewrite in_flat_map. split.
    + intros [[]|[r [Hin Hd]]]. exists r. split; [exact Hin|].
      destruct (Date_only r) as [x|]; [|contradiction].
      destruct Hd as [->|[]]. reflexivity.
    + intros [r [Hin Hd]]. right. exists r. split; [exact Hin|].
      rewrite Hd. left. reflexivity.
  - intros row Hin. unfold day_total.
    apply (groupby_groups Amount view (dr_date row) (dr_amount row)).
    rewrite <- G. apply (in_map (fun row => (dr_date row, dr_amount row))).
    exact Hin.
Qed.

Lemma Qsum_app (l1 l2 : list Q) : Qsum (l1 ++ l2) == Qsum l1 + Qsum l2.
Proof.
  induction l1 as [|x l1 IH]; cbn [app].
  - cbn. ring.
  - rewrite !Qsum_cons, IH. ring.
Qed.

Lemma cumsum_from_rows (acc : Q) (g : list (Z * Q)) (row : DailyRevenue) :
  In row (map (fun gc => mkDaily (fst (fst gc)) (snd (fst gc)) (snd gc))
            (combine g (cumsum_from acc (map snd g)))) ->
  exists before after,
    g = before ++ (dr_date row, dr_amount row) :: after /\
    dr_cumulative row == acc + Qsum (map snd before) + dr_amount row.
Proof.
  revert acc. induction g as [|[k a] g IH]; intros acc Hin; [contradiction|].
  cbn [map snd cumsum_from combine fst] in Hin. destruct Hin as [<-|Hin].
  - exists [], g. split; [reflexivity|]. cbn. ring.
  - destruct (IH (acc + a) Hin) as [before [after [E Hc]]].
    exists ((k, a) :: before), after. split; [rewrite E; reflexivity|].
    rewrite Hc. cbn [map snd]. rewrite Qsum_cons. ring.
Qed.

Lemma cumsum_rows (g : list (Z * Q)) (row : DailyRevenue) :
  In row (map (fun gc => mkDaily (fst (fst gc)) (snd (fst gc)) (snd gc))
            (combine g (cumsum (map snd g)))) ->
  exists before after,
    g = before ++ (dr_date row, dr_amount row) :: after /\
    dr_cumulative row == Qsum (map snd before) + dr_amount row.
Proof.
  destruct g as [|[k a] g]; [contradiction|].
  cbn [map snd cumsum combine fst]. intros [<-|Hin].
  - exists [], g. split; [reflexivity|]. cbn. ring.
  - destruct (cumsum_from_rows a g row Hin) as [before [after [E Hc]]].
    exists ((k, a) :: before), after. split; [rewrite E; reflexivity|].
    rewrite Hc. cbn [map snd]. rewrite Qsum_cons. ring.
Qed.

Lemma sorted_split (l1 l2 : list Z) (x : Z) :
  StronglySorted Z.lt (l1 ++ x :: l2) ->
  (forall y, In y l1 -> (y < x)%Z) /\ (forall y, In y l2 -> (x < y)%Z).
Proof.
  induction l1 as [|a l1 IH]; cbn [app]; intros Hs;
    inversion Hs as [|b l Hl Hall]; subst.
  - split; [intros y []|]. intros y Hy. exact (proj1 (Forall_forall _ _) Hall y Hy).
  - destruct (IH Hl) as [H1 H2]. split; [|exact H2].
    intros y [<-|Hy]; [|exact (H1 y Hy)].
    apply (proj1 (Forall_forall _ _) Hall). apply in_or_app. right. left. reflexivity.
Qed.

Lemma Qsum_groups (view : DataFrame) (g : list (Z * Q)) :
  (forall k s, In (k, s) g -> s == day_total view k) ->
  Qsum (map snd g) == Qsum (map (day_total view) (map fst g)).
Proof.
  induction g as [|[k s] g IH]; intros H; [reflexivity|].
  cbn [map fst snd]. rewrite !Qsum_cons.
  rewrite (H k s (or_introl eq_refl)), IH; [reflexivity|].
  intros k' s' Hin. apply H. right. exact Hin.
Qed.

(** X19: the Cumulative value of each point of the daily series is the sum
    of Amount over all rows of the report view dated on or before that
    point's date. *)
Theorem cumulative_is_total_to_date (view : DataFrame) (row : DailyRevenue) :
  In row (daily_revenue view) ->
  dr_cumulative row == col_sum Amount (filter (on_or_before (dr_date row)) view).
Proof.
  intros Hin. unfold daily_revenue in Hin.
  set (g := groupby_date_sum Amount view) in *.
  assert (Hs : StronglySorted Z.lt (map fst g)).
  { apply (groupby_fold_sorted Amount view []). constructor. }
  rewrite (sort_values_date_sorted g Hs) in Hin.
  destruct (cumsum_rows g row Hin) as [before [after [E Hc]]].
  set (d := dr_date row) in *. set (a := dr_amount row) in *.
  set (upto := before ++ [(d, a)]).
  assert (Eg : g = upto ++ after).
  { unfold upto. rewrite <- app_assoc. exact E. }
  assert (Hsum : dr_cumulative row == Qsum (map snd upto)).
  { rewrite Hc. unfold upto. rewrite map_app, Qsum_app. cbn. ring. }
  rewrite Hsum.
  rewrite (Qsum_groups view upto).
  2:{ intros k s Hk. unfold day_total.
      apply (groupby_groups Amount view k s). fold g. rewrite Eg.
      apply in_or_app. left. exact Hk. }
  assert (Hkeys : map fst g = map fst before ++ d :: map fst after).
  { rewrite E, map_app. reflexivity. }
  rewrite Hkeys in Hs. destruct (sorted_split _ _ _ Hs) as [Hlow Hhigh].
  assert (Hnd : NoDup (map fst upto)).
  { apply sorted_NoDup. unfold upto. rewrite map_app. cbn [map fst].
    clear -Hs.
    induction (map fst before) as [|x l IH]; cbn [app] in *.
    - constructor; constructor.
    - inversion Hs as [|b l' Hl Hall]; subst. constructor; [apply IH; exact Hl|].
      apply Forall_forall. intros y Hy.
      apply (proj1 (Forall_forall _ _) Hall). apply in_app_or in Hy.
      apply in_or_app. destruct Hy as [Hy|[<-|[]]]; [left; exact Hy|].
      right. left. reflexivity. }
  rewrite (day_totals_sum view (map fst upto) Hnd).
  rewrite (filter_ext_in (day_in (map fst upto)) (on_or_before d)); [reflexivity|].
  intros r Hr. unfold day_in, on_or_before.
  destruct (Date_only r) as [x|] eqn:Ex; [|reflexivity].
  assert (Hx : In x (map fst g)).
  { unfold g, groupby_date_sum. apply (groupby_fold_keys Amount view [] x).
    right. exact (In_dated view r x Hr Ex). }
  rewrite Hkeys in Hx. apply in_app_or in Hx.
  unfold upto. rewrite map_app. cbn [map fst].
  destruct Hx as [Hx|[<-|Hx]].
  - pose proof (Hlow x Hx).
    destruct (Z.leb_spec x d); [|lia].
    apply existsb_exists. exists x. split; [|apply Z.eqb_refl].
    apply in_or_app. left. exact Hx.
  - rewrite Z.leb_refl. apply existsb_exists. exists d.
    split; [|apply Z.eqb_refl]. apply in_or_app. right. left. reflexivity.
  - pose proof (Hhigh x Hx).
    destruct (Z.leb_spec x d); [lia|].
    destruct (existsb (Z.eqb x) (map fst before ++ [d])) eqn:Eb; [|reflexivity].
    apply existsb_exists in Eb. destruct Eb as [y [Hy Hxy]].
    apply Z.eqb_eq in Hxy. subst y. apply in_app_or in Hy.
    destruct Hy as [Hy|[<-|[]]]; [pose proof (Hlow x Hy)|]; lia.
Qed.

Lemma cumulative_is_total_to_date_witness :
  In (mkDaily 739001 50 850) (daily_revenue (file_rows file_two_vendors)) /\
  dr_cumulative (mkDaily 739001 50 850) ==
  col_sum Amount
    (filter (on_or_before (dr_date (mkDaily 739001 50 850)))
       (file_rows file_two_vendors)).
Proof.
  assert (H : In (mkDaily 739001 50 850) (daily_revenue (file_rows file_two_vendors))).
  { right. left. reflexivity. }
  split; [exact H|].
  exact (cumulative_is_total_to_date (file_rows file_two_vendors)
           (mkDaily 739001 50 850) H).
Defined.

(** ** The vendor pie *)

Lemma group_add_name_sum (n : string) (x : Q) (g : list (string * Q)) :
  Qsum (map snd (group_add_name n x g)) == Qsum (map snd g) + x.
Proof.
  induction g as [|[n' s] g IH]; cbn [group_add_name].
  - cbn. ring.
  - destruct (String.ltb n n').
    + cbn [map snd]. rewrite !Qsum_cons. ring.
    + destruct (String.eqb n n'); cbn [map snd]; rewrite !Qsum_cons.
      * ring.
      * rewrite IH. ring.
Qed.

Lemma vendor_rev_fold_total (rows : list (Row * string)) (acc : list (string * Q)) :
  Qsum (map snd
          (fold_left
             (fun groups rn =>
                group_add_name (snd rn) (nan_to_zero (Amount (fst rn))) groups)
             rows acc))
  == Qsum (map snd acc) + paired_amount rows.
Proof.
  revert acc. induction rows as [|[r n] rows IH]; intros acc; cbn [fold_left].
  - unfold paired_amount. cbn. ring.
  - rewrite IH, group_add_name_sum. unfold paired_amount.
    cbn [map fst snd col_sum]. destruct (Amount r); cbn [nan_to_zero]; ring.
Qed.

Lemma filter_combine_fst (p : Row -> bool) (view : DataFrame) (names : list string) :
  List.length names = List.length view ->
  map fst (filter (fun rn => p (fst rn)) (combine view names)) = filter p view.
Proof.
  revert names. induction view as [|r view IH]; intros [|n names] H;
    try discriminate H; [reflexivity|].
  cbn [combine filter fst]. cbn in H.
  destruct (p r); cbn [map fst]; rewrite IH by congruence; reflexivity.
Qed.

(** X20: the vendor pie is drawn exactly when the report view has a C2B
    row, and then its slices add up to the report's Total Revenue; without a
    C2B row that total is zero. *)
Theorem pie_total_is_report_revenue (view : DataFrame) (names : list string)
    (dfs : list DataFrame) (c : Charts) :
  List.length names = List.length view ->
  draw_charts view names = inr c ->
  match fig_pie c with
  | Some slices =>
      Qsum (map snd slices) == total_revenue (calc_report view dfs) /\
      exists r, In r view /\ Channel_Type r = Some "C2B"
  | None =>
      (forall r, In r view -> Channel_Type r <> Some "C2B") /\
      total_revenue (calc_report view dfs) = 0
  end.
Proof.
  intros Hlen H. destruct view as [|r0 view]; [discriminate|].
  unfold draw_charts in H.
  pose proof (filter_combine_fst (channel_is "C2B") (r0 :: view) names Hlen) as Hrows.
  remember (filter (fun rn => channel_is "C2B" (fst rn)) (combine (r0 :: view) names))
    as rows eqn:Er.
  clear Er. injection H as <-. cbn [fig_pie].
  unfold calc_report. cbn [total_revenue]. rewrite <- Hrows.
  destruct rows as [|[r n] rows']; cbn [List.length Nat.ltb Nat.leb]; cbv beta iota.
  - split; [|reflexivity]. intros r Hin Hc.
    assert (Hf : In r (filter (channel_is "C2B") (r0 :: view))).
    { apply filter_In. split; [exact Hin|]. unfold channel_is. rewrite Hc. reflexivity. }
    rewrite <- Hrows in Hf. contradiction.
  - split.
    + unfold vendor_rev. rewrite vendor_rev_fold_total. unfold paired_amount.
      cbn [map snd Qsum fold_right]. ring.
    + assert (Hf : In r (filter (channel_is "C2B") (r0 :: view))).
      { rewrite <- Hrows. left. reflexivity. }
      apply filter_In in Hf. destruct Hf as [Hin Hc]. exists r. split; [exact Hin|].
      unfold channel_is in Hc. destruct (Channel_Type r) as [s|]; [|discriminate].
      apply String.eqb_eq in Hc. subst. reflexivity.
Qed.

Lemma pie_total_is_report_revenue_witness :
  exists d c,
    run sample_eval [file_two_vendors] all_channels [vendlite; 254754%Z]
      "{254499: 'Vendlite'}" = Rendered d /\
    draw_charts (filtered_df d) (filtered_vendor_name d) = inr c /\
    fig_pie c = Some [("254754", 1000); ("Vendlite", 1000)] /\
    match fig_pie c with
    | Some slices =>
        Qsum (map snd slices) ==
          total_revenue (calc_report (filtered_df d) [file_rows file_two_vendors]) /\
        exists r, In r (filtered_df d) /\ Channel_Type r = Some "C2B"
    | None =>
        (forall r, In r (filtered_df d) -> Channel_Type r <> Some "C2B") /\
        total_revenue (calc_report (filtered_df d) [file_rows file_two_vendors]) = 0
    end.
Proof.
  eexists. eexists. split; [reflexivity|]. split; [reflexivity|].
  split; [reflexivity|].
  eapply (pie_total_is_report_revenue _ _ [file_rows file_two_vendors]); cycle 1.
  - reflexivity.
  - reflexivity.
Defined.

Lemma ltb_name_lt (a b : string) : String.ltb a b = true <-> name_lt a b.
Proof.
  unfold String.ltb, name_lt.
  rewrite <- OrderedTypeEx.String_as_OT.cmp_lt. unfold OrderedTypeEx.String_as_OT.cmp.
  destruct (String.compare a b); split; congruence.
Qed.

Lemma name_lt_after (a b : string) :
  String.ltb a b = false -> String.eqb a b = false -> name_lt b a.
Proof.
  intros Hl He. apply ltb_name_lt. unfold String.ltb in *.
  rewrite String.compare_antisym.
  destruct (String.compare a b) eqn:C; cbn; [|discriminate Hl|reflexivity].
  apply String.compare_eq_iff in C. subst. rewrite String.eqb_refl in He.
  discriminate.
Qed.

Lemma group_add_name_keys (n : string) (x : Q) (g : list (string * Q)) (k : string) :
  In k (map fst (group_add_name n x g)) <-> k = n \/ In k (map fst g).
Proof.
  induction g as [|[n' s] g IH]; cbn [group_add_name].
  - cbn. intuition.
  - destruct (String.ltb n n').
    + cbn [map fst In]. intuition.
    + destruct (String.eqb_spec n n') as [->|Hne]; cbn [map fst In].
      * intuition.
      * rewrite IH. intuition.
Qed.

Lemma group_add_name_sorted (n : string) (x : Q) (g : list (string * Q)) :
  StronglySorted name_lt (map fst g) ->
  StronglySorted name_lt (map fst (group_add_name n x g)).
Proof.
  induction g as [|[n' s] g IH]; cbn [group_add_name]; intros Hs.
  - cbn. constructor; constructor.
  - cbn [map fst] in Hs. inversion Hs as [|a l Hl Hall]; subst.
    destruct (String.ltb n n') eqn:Hlt.
    + apply ltb_name_lt in Hlt. cbn [map fst]. constructor; [exact Hs|].
      constructor; [exact Hlt|].
      eapply Forall_impl; [|exact Hall]. intros k Hk. cbn in Hk.
      exact (OrderedTypeEx.String_as_OT.lt_trans _ _ _ Hlt Hk).
    + destruct (String.eqb n n') eqn:Heq; cbn [map fst].
      * exact Hs.
      * constructor; [apply IH; exact Hl|].
        apply Forall_forall. intros k Hk. apply group_add_name_keys in Hk.
        destruct Hk as [->|Hk]; [exact (name_lt_after n n' Hlt Heq)|].
        exact (proj1 (Forall_forall _ _) Hall k Hk).
Qed.

Lemma name_sorted_NoDup (l : list string) : StronglySorted name_lt l -> NoDup l.
Proof.
  induction 1 as [|a l Hs IH Hall]; constructor; [|exact IH].
  intros Hin. pose proof (proj1 (Forall_forall _ _) Hall a Hin) as Hlt.
  exact (OrderedTypeEx.String_as_OT.lt_not_eq _ _ Hlt eq_refl).
Qed.

Lemma group_add_name_value (n' : string) (x : Q) (g : list (string * Q)) (n : string) :
  name_value n (group_add_name n' x g) ==
  name_value n g + (if String.eqb n' n then x else 0).
Proof.
  unfold name_value. induction g as [|[k s] g IH]; cbn [group_add_name].
  - cbn [filter fst map snd]. destruct (String.eqb n' n); cbn; ring.
  - destruct (String.ltb n' k).
    + cbn [filter fst]. destruct (String.eqb n' n), (String.eqb k n);
        cbn [map snd]; rewrite ?Qsum_cons; ring.
    + destruct (String.eqb_spec n' k) as [->|Hne].
      * cbn [filter fst]. destruct (String.eqb k n);
          cbn [map snd]; rewrite ?Qsum_cons; ring.
      * cbn [filter fst]. destruct (String.eqb k n);
          cbn [map snd]; rewrite ?Qsum_cons, IH; ring.
Qed.

Lemma name_value_In (g : list (string * Q)) (n : string) (s : Q) :
  NoDup (map fst g) -> In (n, s) g -> name_value n g == s.
Proof.
  unfold name_value. induction g as [|[k t] g IH]; intros Hnd Hin; [contradiction|].
  cbn [map fst] in Hnd. inversion Hnd as [|a l Hnot Hnd']; subst.
  cbn [filter fst]. destruct Hin as [E|Hin].
  - inversion E; subst. rewrite String.eqb_refl. cbn [map snd]. rewrite Qsum_cons.
    rewrite (filter_none (fun g0 => String.eqb (fst g0) n) g).
    + cbn. ring.
    + intros [k' t'] Hk. cbn [fst].
      destruct (String.eqb_spec k' n) as [->|]; [|reflexivity].
      exfalso. apply Hnot. apply (in_map fst) in Hk. exact Hk.
  - destruct (String.eqb_spec k n) as [->|Hne].
    + exfalso. apply Hnot. apply (in_map fst) in Hin. exact Hin.
    + apply IH; assumption.
Qed.

Lemma vendor_rev_fold (rows : list (Row * string)) (acc : list (string * Q)) :
  let step := fun groups (rn : Row * string) =>
    group_add_name (snd rn) (nan_to_zero (Amount (fst rn))) groups in
  (StronglySorted name_lt (map fst acc) ->
   StronglySorted name_lt (map fst (fold_left step rows acc))) /\
  (forall k, In k (map fst (fold_left step rows acc)) <->
             In k (map fst acc) \/ exists rn, In rn rows /\ snd rn = k) /\
  (forall n, name_value n (fold_left step rows acc) ==
             name_value n acc + paired_amount (filter (named n) rows)).
Proof.
  cbv zeta. revert acc. induction rows as [|[r m] rows IH]; intros acc; cbn [fold_left].
  - split; [tauto|]. split.
    + intros k. split; [tauto|]. intros [H|[rn [[] _]]]. exact H.
    + intros n. unfold paired_amount. cbn. ring.
  - destruct (IH (group_add_name m (nan_to_zero (Amount r)) acc)) as [IHs [IHk IHv]].
    cbn [fst snd] in *. split; [|split].
    + intros Hs. apply IHs. apply group_add_name_sorted. exact Hs.
    + intros k. rewrite IHk, group_add_name_keys. split.
      * intros [[->|H]|[rn [Hin Hk]]].
        -- right. exists (r, m). split; [left; reflexivity | reflexivity].
        -- left. exact H.
        -- right. exists rn. split; [right; exact Hin | exact Hk].
      * intros [H|[rn [[<-|Hin] Hk]]].
        -- left. right. exact H.
        -- left. left. cbn in Hk. congruence.
        -- right. exists rn. split; assumption.
    + intros n. rewrite IHv, group_add_name_value. cbn [filter]. unfold named at 2.
      cbn [snd]. unfold paired_amount.
      destruct (String.eqb m n); cbn [map fst col_sum].
      * destruct (Amount r); cbn [nan_to_zero]; ring.
      * ring.
Qed.

(** X21: the slices of the vendor pie come in strictly ascending lexical
    order of the vendor name, one per Vendor Name found among the rows, and
    each slice is the sum of Amount over the rows of that name. *)
Theorem vendor_rev_slices (rows : list (Row * string)) :
  StronglySorted name_lt (map fst (vendor_rev rows)) /\
  (forall n, In n (map fst (vendor_rev rows)) <-> exists rn, In rn rows /\ snd rn = n) /\
  (forall n s, In (n, s) (vendor_rev rows) ->
               s == paired_amount (filter (named n) rows)).
Proof.
  destruct (vendor_rev_fold rows []) as [Hs [Hk Hv]].
  assert (S : StronglySorted name_lt (map fst (vendor_rev rows)))
    by (apply Hs; constructor).
  split; [exact S|]. split.
  - intros n. unfold vendor_rev. rewrite Hk. cbn. tauto.
  - intros n s Hin.
    rewrite <- (name_value_In _ n s (name_sorted_NoDup _ S) Hin).
    unfold vendor_rev. rewrite Hv. cbn. ring.
Qed.

(** ** Cleaning of the Code column *)

Lemma lstrip_quote_length (s : string) :
  (String.length (lstrip_quote s) <= String.length s)%nat.
Proof.
  induction s as [|c s IH]; cbn [lstrip_quote]; [apply le_n|].
  destruct (Ascii.eqb c "'"); cbn [String.length]; lia.
Qed.

Lemma lstrip_fixed_head (c : ascii) (s : string) :
  lstrip_quote (String c s) = String c s -> Ascii.eqb c "'" = false.
Proof.
  cbn [lstrip_quote]. destruct (Ascii.eqb c "'"); [|reflexivity].
  intros H. pose proof (lstrip_quote_length s) as L. rewrite H in L.
  cbn [String.length] in L. lia.
Qed.

Lemma lstrip_decompose (s : string) :
  exists a, s = (quotes a ++ lstrip_quote s)%string.
Proof.
  induction s as [|c s [a IH]]; [exists 0%nat; reflexivity|].
  cbn [lstrip_quote]. destruct (Ascii.eqb_spec c "'") as [->|Hne].
  - exists (S a). cbn [quotes String.append]. rewrite <- IH. reflexivity.
  - exists 0%nat. reflexivity.
Qed.

Lemma rstrip_decompose (s : string) :
  exists b, s = (rstrip_quote s ++ quotes b)%string.
Proof.
  induction s as [|c s [b IH]]; [exists 0%nat; reflexivity|].
  cbn [rstrip_quote]. destruct (rstrip_quote s) as [|c' r'] eqn:E.
  - cbn [String.append] in IH. destruct (Ascii.eqb_spec c "'") as [->|Hne].
    + exists (S b). cbn [quotes String.append]. rewrite <- IH. reflexivity.
    + exists b. cbn [String.append]. rewrite <- IH. reflexivity.
  - exists b. cbn [String.append] in *. rewrite <- IH. reflexivity.
Qed.

Lemma rstrip_idempotent (s : string) : rstrip_quote (rstrip_quote s) = rstrip_quote s.
Proof.
  induction s as [|c s IH]; [reflexivity|].
  cbn [rstrip_quote]. destruct (rstrip_quote s) as [|c' r'] eqn:E.
  - destruct (Ascii.eqb c "'") eqn:Ec; [reflexivity|].
    cbn [rstrip_quote]. rewrite Ec. reflexivity.
  - change (rstrip_quote (String c (String c' r')))
      with (match rstrip_quote (String c' r') with
            | EmptyString => if Ascii.eqb c "'" then EmptyString else String c EmptyString
            | String c'' r'' => String c (String c'' r'')
            end).
    rewrite IH. reflexivity.
Qed.

Lemma lstrip_rstrip (t : string) :
  lstrip_quote t = t -> lstrip_quote (rstrip_quote t) = rstrip_quote t.
Proof.
  destruct t as [|c t]; [reflexivity|]. intros H.
  pose proof (lstrip_fixed_head c t H) as Hc.
  cbn [rstrip_quote]. destruct (rstrip_quote t); [rewrite Hc|];
    cbn [lstrip_quote]; rewrite Hc; reflexivity.
Qed.

Lemma lstrip_idempotent (s : string) : lstrip_quote (lstrip_quote s) = lstrip_quote s.
Proof.
  induction s as [|c s IH]; [reflexivity|].
  cbn [lstrip_quote]. destruct (Ascii.eqb c "'") eqn:Ec; [exact IH|].
  cbn [lstrip_quote]. rewrite Ec. reflexivity.
Qed.

(** X22: cleaning a Code cell removes single quotes from its two ends and
    nothing else: the cell is the cleaned text between two runs of quotes,
    and the cleaned text neither starts nor ends with a quote. *)
Theorem clean_code_strips_end_quotes (code : string) :
  quote_free_ends (clean_code code) /\
  exists a b, code = (quotes a ++ clean_code code ++ quotes b)%string.
Proof.
  unfold clean_code, quote_free_ends. split; [split|].
  - apply lstrip_rstrip. apply lstrip_idempotent.
  - apply rstrip_idempotent.
  - destruct (lstrip_decompose code) as [a Ha].
    destruct (rstrip_decompose (lstrip_quote code)) as [b Hb].
    exists a, b. rewrite <- Hb. exact Ha.
Qed.

Lemma lstrip_quotes_app (a : nat) (t : string) :
  lstrip_quote (quotes a ++ t) = lstrip_quote t.
Proof.
  induction a as [|a IH]; [reflexivity|].
  cbn [quotes String.append lstrip_quote]. exact IH.
Qed.

Lemma rstrip_quotes (b : nat) : rstrip_quote (quotes b) = EmptyString.
Proof.
  induction b as [|b IH]; [reflexivity|].
  cbn [quotes rstrip_quote]. rewrite IH. reflexivity.
Qed.

Lemma rstrip_app_quotes (s : string) (b : nat) :
  rstrip_quote (s ++ quotes b) = rstrip_quote s.
Proof.
  induction s as [|c s IH]; cbn [String.append]; [apply rstrip_quotes|].
  cbn [rstrip_quote]. rewrite IH. reflexivity.
Qed.

(** X23: conversely, a text that neither starts nor ends with a single
    quote is recovered from any wrapping in quotes. *)
Theorem clean_code_unwraps (a b : nat) (s : string) :
  quote_free_ends s ->
  clean_code (quotes a ++ s ++ quotes b) = s.
Proof.
  intros [Hl Hr]. unfold clean_code. rewrite lstrip_quotes_app.
  destruct s as [|c s].
  - cbn [String.append]. destruct (lstrip_decompose (quotes b)) as [k Hk].
    assert (E : lstrip_quote (quotes b) = EmptyString).
    { clear. induction b as [|b IH]; [reflexivity|]. exact IH. }
    rewrite E. reflexivity.
  - pose proof (lstrip_fixed_head c s Hl) as Hc.
    cbn [String.append lstrip_quote]. rewrite Hc.
    change (String c (s ++ quotes b)) with (String c s ++ quotes b)%string.
    rewrite rstrip_app_quotes. exact Hr.
Qed.

Lemma clean_code_unwraps_witness :
  quote_free_ends "AB'C" /\ clean_code (quotes 2 ++ "AB'C" ++ quotes 1) = "AB'C".
Proof.
  assert (H : quote_free_ends "AB'C") by (split; reflexivity).
  split; [exact H|]. exact (clean_code_unwraps 2 1 "AB'C" H).
Defined.
